(** * github_user_repo_stats: a shallow embedding and its properties

    The development follows [soft_eng_tools/github_user_repo_stats.py]:
    the Python helpers the script relies on (string slicing, [int],
    [rsplit], [in]), the command-line check, the start-date parsing, the
    nested pull-request / review loop, and the script as a whole with the
    GitHub client represented by the answers it gives. *)

From Stdlib Require Import ZArith List Bool String Ascii Lia.
Import ListNotations.

Local Open Scope string_scope.
Local Open Scope list_scope.
Local Open Scope Z_scope.

(** ** Exceptions and results *)

(** The exceptions the script can end with.  [BadCredentialsException]
    and [UnknownObjectException] are the client library's; anything else
    the library raises is an [OtherException]. *)
Inductive exn : Type :=
| AssertionError (msg : string)
| ValueError (msg : string)
| AttributeError (msg : string)
| IndexError (msg : string)
| BadCredentialsException
| UnknownObjectException
| OtherException (name : string).

Inductive result (A : Type) : Type :=
| Ok (a : A)
| Raise (e : exn).
Arguments Ok {A} a.
Arguments Raise {A} e.

(** ** Python strings *)

Module PyStr.

(** [s[lo:hi]] for non-negative bounds. *)
Fixpoint slice_to (hi : nat) (s : string) : string :=
  match hi, s with
  | S hi', String c s' => String c (slice_to hi' s')
  | _, _ => EmptyString
  end.

(** [s[lo:]] for a non-negative bound. *)
Fixpoint slice_from (lo : nat) (s : string) : string :=
  match lo, s with
  | S lo', String _ s' => slice_from lo' s'
  | _, _ => s
  end.

Definition slice (lo hi : nat) (s : string) : string :=
  slice_to (hi - lo) (slice_from lo s).

(** [c in s] for a one-character [c]. *)
Fixpoint contains (c : ascii) (s : string) : bool :=
  match s with
  | EmptyString => false
  | String d s' => Ascii.eqb d c || contains c s'
  end.

(** Number of occurrences of [c] in [s]. *)
Fixpoint count (c : ascii) (s : string) : nat :=
  match s with
  | EmptyString => O
  | String d s' => (if Ascii.eqb d c then 1 else 0) + count c s'
  end.

(** [s.rsplit(c)] without a split limit: every separator splits, so the
    result is the one of [s.split(c)]. *)
Fixpoint rsplit (c : ascii) (s : string) : list string :=
  match s with
  | EmptyString => [EmptyString]
  | String d s' =>
      if Ascii.eqb d c then EmptyString :: rsplit c s'
      else match rsplit c s' with
           | [] => [String d EmptyString]
           | w :: ws => String d w :: ws
           end
  end.

Definition is_digit (c : ascii) : bool :=
  (48 <=? nat_of_ascii c)%nat && (nat_of_ascii c <=? 57)%nat.

Definition digit_val (c : ascii) : Z := Z.of_nat (nat_of_ascii c) - 48.

(** Characters [str.strip] removes: space, tab, line feed, vertical tab,
    form feed, carriage return and the four separators 28 to 31. *)
Definition is_space (c : ascii) : bool :=
  let n := nat_of_ascii c in
  (n =? 32)%nat || ((9 <=? n)%nat && (n <=? 13)%nat)
  || ((28 <=? n)%nat && (n <=? 31)%nat).

Fixpoint lstrip (s : string) : string :=
  match s with
  | String c s' => if is_space c then lstrip s' else s
  | EmptyString => s
  end.

Fixpoint rstrip (s : string) : string :=
  match s with
  | EmptyString => EmptyString
  | String c s' =>
      match rstrip s' with
      | EmptyString => if is_space c then EmptyString else String c EmptyString
      | t => String c t
      end
  end.

(** Digits of a decimal literal, after the first one: each is a digit or
    one underscore followed by a digit.  [acc] is the value read so far. *)
Fixpoint int_digits (acc : Z) (s : string) : option Z :=
  match s with
  | EmptyString => Some acc
  | String c s' =>
      if is_digit c then int_digits (10 * acc + digit_val c) s'
      else if Ascii.eqb c "_"
      then match s' with
           | String d s'' =>
               if is_digit d then int_digits (10 * acc + digit_val d) s''
               else None
           | EmptyString => None
           end
      else None
  end.

Definition int_unsigned (s : string) : option Z :=
  match s with
  | String c s' => if is_digit c then int_digits (digit_val c) s' else None
  | EmptyString => None
  end.

Definition int_literal (s : string) : option Z :=
  match rstrip (lstrip s) with
  | String "+" s' => int_unsigned s'
  | String "-" s' => option_map Z.opp (int_unsigned s')
  | t => int_unsigned t
  end.

(** [int(s)] on a string of ASCII characters.  The message of the
    [ValueError] quotes the argument; the quoting is the one of [repr] for
    a string without quote, backslash or control character. *)
Definition int (s : string) : result Z :=
  match int_literal s with
  | Some z => Ok z
  | None =>
      Raise (ValueError
               ("invalid literal for int() with base 10: '" ++ s ++ "'")%string)
  end.

End PyStr.

(** ** Command line *)

(** The namespace [argparse] returns: both required options and the
    optional user name ([None] when the option is absent). *)
Record Args : Type := mkArgs {
  repository : string;
  start_date : string;
  username : option string
}.

(** [parse_command_line], after [parser.parse_args()]: the assertion on
    the repository argument. *)
Definition parse_command_line (args : Args) : result Args :=
  if PyStr.contains "/" (repository args) then Ok args
  else Raise (AssertionError "repository argument must be '<org>/<repo>'").

(** Lines 94-96 of [main_script]: the cutoff year and month. *)
Definition start_year_of (args : Args) : result Z :=
  PyStr.int (PyStr.slice 0 4 (start_date args)).

Definition start_month_of (args : Args) : result Z :=
  PyStr.int (PyStr.slice_from 5 (start_date args)).

(** ** Data delivered by the GitHub client *)

(** What the script reads of a timestamp once it is converted to the
    reference time zone. *)
Record DateTime : Type := mkDateTime {
  year : Z;
  month : Z
}.

(** [Instant] is the type of the timestamps the client delivers. *)
Record Review (Instant : Type) : Type := mkReview {
  user_login : string;
  state : string;
  submitted_at : Instant
}.
Arguments mkReview {Instant} _ _ _.
Arguments user_login {Instant} _.
Arguments state {Instant} _.
Arguments submitted_at {Instant} _.

Record PullRequest (Instant : Type) : Type := mkPullRequest {
  number : Z;
  merged : bool;
  merged_at : option Instant;
  additions : Z;
  deletions : Z;
  get_reviews : list (Review Instant)
}.
Arguments mkPullRequest {Instant} _ _ _ _ _ _.
Arguments number {Instant} _.
Arguments merged {Instant} _.
Arguments merged_at {Instant} _.
Arguments additions {Instant} _.
Arguments deletions {Instant} _.
Arguments get_reviews {Instant} _.

(** The same pull request with another list of reviews. *)
Definition with_reviews {Instant : Type} (pr : PullRequest Instant)
    (reviews : list (Review Instant)) : PullRequest Instant :=
  mkPullRequest (number pr) (merged pr) (merged_at pr)
                (additions pr) (deletions pr) reviews.

(** The counters and maximum values of lines 137-144. *)
Record Accumulator : Type := mkAccumulator {
  num_reviewed_prs : Z;
  num_additions : Z;
  num_deletions : Z;
  max_pr_additions : Z;
  max_pr_num : Z
}.

Definition initial_counters : Accumulator := mkAccumulator 0 0 0 0 0.

(** ** Effects *)

(** What the script does that can be observed from outside, in order. *)
Inductive Event : Type :=
| Getpass (prompt : string)
| ApiGetUser
| ApiGetOrganization (name : string)
| ApiGetRepo (name : string)
| ApiGetPulls
| ApiClose
| PrintLine (line : string)
| PrintOnPR (pr_number : Z)
| PrintSummary (acc : Accumulator).

(** A computation: the events it produced and how it ended. *)
Definition M (A : Type) : Type := (list Event * result A)%type.

Definition ret {A : Type} (a : A) : M A := ([], Ok a).

Definition raise {A : Type} (e : exn) : M A := ([], Raise e).

Definition lift {A : Type} (r : result A) : M A := ([], r).

Definition emit (e : Event) : M unit := ([e], Ok tt).

Definition bind {A B : Type} (m : M A) (k : A -> M B) : M B :=
  match m with
  | (t, Ok a) => (t ++ fst (k a), snd (k a))
  | (t, Raise e) => (t, Raise e)
  end.

Notation "x <- m ;; k" := (bind m (fun x => k))
  (at level 61, m at next level, right associativity).
Notation "m ;;; k" := (bind m (fun _ => k))
  (at level 61, right associativity).

(** ** The pull-request and review loops *)

Section Loop.

Variable Instant : Type.

(** [t.astimezone(denver_time)], as far as the script reads it. *)
Variable astimezone : Instant -> DateTime.

(** The user whose reviews are collected, and the cutoff. *)
Variable user : string.
Variable start_year start_month : Z.

(** Lines 182-183. *)
Definition is_user_review (review : Review Instant) : bool :=
  String.eqb (user_login review) user
  && negb (String.eqb (state review) "COMMENTED").

(** Lines 187-189. *)
Definition submitted_in_range (review : Review Instant) : bool :=
  let submit_date := astimezone (submitted_at review) in
  (year submit_date >? start_year)
  || ((year submit_date =? start_year)
      && (month submit_date >=? start_month)).

(** Lines 164-166. *)
Definition merged_before_start (t : Instant) : bool :=
  let merge_date := astimezone t in
  (year merge_date <? start_year)
  || ((year merge_date =? start_year)
      && (month merge_date <? start_month)).

(** Lines 190-202: one counted review of [pr]. *)
Definition count_review (pr : PullRequest Instant) (acc : Accumulator)
    : Accumulator :=
  let grows := additions pr >? max_pr_additions acc in
  {| num_reviewed_prs := num_reviewed_prs acc + 1;
     num_additions := num_additions acc + additions pr;
     num_deletions := num_deletions acc + deletions pr;
     max_pr_additions :=
       if grows then additions pr else max_pr_additions acc;
     max_pr_num := if grows then number pr else max_pr_num acc |}.

(** Lines 181-211: the loop over the reviews of [pr].  The result is the
    counters and the value of [stop_loop] when the loop is left. *)
Fixpoint review_loop (pr : PullRequest Instant)
    (reviews : list (Review Instant)) (acc : Accumulator)
    : Accumulator * bool :=
  match reviews with
  | [] => (acc, false)
  | review :: rest =>
      if is_user_review review then
        if submitted_in_range review
        then review_loop pr rest (count_review pr acc)
        else (acc, true)
      else review_loop pr rest acc
  end.

(** Lines 160-169: is the loop left at this pull request? *)
Definition merged_too_early (pr : PullRequest Instant) : M bool :=
  if merged pr then
    match merged_at pr with
    | Some t => ret (merged_before_start t)
    | None =>
        raise (AttributeError
                 "'NoneType' object has no attribute 'astimezone'")
    end
  else ret false.

(** Lines 153-212: the loop over the pull requests, entered with the
    counters [acc] and the flag [stop_loop]. *)
Fixpoint pr_loop (pulls : list (PullRequest Instant)) (acc : Accumulator)
    (stop_loop : bool) : M Accumulator :=
  match pulls with
  | [] => ret acc
  | pr :: rest =>
      if stop_loop then ret acc
      else
        too_early <- merged_too_early pr ;;
        if too_early : bool then ret acc
        else
          emit (PrintOnPR (number pr)) ;;;
          match get_reviews pr with
          | [] => pr_loop rest acc false
          | reviews =>
              let (acc', stop_loop') := review_loop pr reviews acc in
              pr_loop rest acc' stop_loop'
          end
  end.

End Loop.

(** ** The script *)

(** The GitHub client, represented by what it answers. *)
Record Repository (Instant : Type) : Type := mkRepository {
  get_pulls : list (PullRequest Instant)
}.
Arguments mkRepository {Instant} _.
Arguments get_pulls {Instant} _.

Record Organization (Instant : Type) : Type := mkOrganization {
  get_repo : string -> result (Repository Instant)
}.
Arguments mkOrganization {Instant} _.
Arguments get_repo {Instant} _ _.

Record Github (Instant : Type) : Type := mkGithub {
  get_user_login : result string;
  get_organization : string -> result (Organization Instant)
}.
Arguments mkGithub {Instant} _ _.
Arguments get_user_login {Instant} _.
Arguments get_organization {Instant} _ _.

(** The surroundings of one run: what is typed at the prompt, and the
    client a token gives. *)
Record World (Instant : Type) : Type := mkWorld {
  getpass : string;
  connect : string -> Github Instant
}.
Arguments mkWorld {Instant} _ _.
Arguments getpass {Instant} _.
Arguments connect {Instant} _ _.

(** [l[i]] on a Python list, for [i >= 0]. *)
Definition list_index {A : Type} (l : list A) (i : nat) : result A :=
  match nth_error l i with
  | Some a => Ok a
  | None => Raise (IndexError "list index out of range")
  end.

(** Truth value of [args.username]. *)
Definition given_username (args : Args) : option string :=
  match username args with
  | Some EmptyString => None
  | u => u
  end.

Section Script.

Variable Instant : Type.
Variable astimezone : Instant -> DateTime.

(** Lines 107-115. *)
Definition login_or_bad_token (ghub : Github Instant) : M string :=
  emit ApiGetUser ;;;
  match get_user_login ghub with
  | Ok login => ret login
  | Raise BadCredentialsException =>
      raise (ValueError "Bad Github authorization token!")
  | Raise e => raise e
  end.

(** [main_script], from the parsed arguments on.  The value returned is
    the one of the counters that the last lines print. *)
Definition main_script (args : Args) (w : World Instant) : M Accumulator :=
  args <- lift (parse_command_line args) ;;
  let repo_args := PyStr.rsplit "/" (repository args) in
  start_year <- lift (start_year_of args) ;;
  start_month <- lift (start_month_of args) ;;
  emit (Getpass "Auth. Token:") ;;;
  let token_val := getpass w in
  let ghub := connect w token_val in
  login <- login_or_bad_token ghub ;;
  let user :=
    match given_username args with
    | Some name => name
    | None => login
    end in
  org_name <- lift (list_index repo_args 0) ;;
  emit (ApiGetOrganization org_name) ;;;
  org <- lift (get_organization ghub org_name) ;;
  repo_name <- lift (list_index repo_args 1) ;;
  emit (ApiGetRepo repo_name) ;;;
  repo <- lift (get_repo org repo_name) ;;
  emit ApiGetPulls ;;;
  let pulls := get_pulls repo in
  emit (PrintLine "Looping over PRs for ESCOMP/CAM...") ;;;
  acc <- pr_loop Instant astimezone user start_year start_month
                 pulls initial_counters false ;;
  emit (PrintLine "...Finished ESCOMP/CAM PR loop.") ;;;
  emit ApiClose ;;;
  emit (PrintSummary acc) ;;;
  ret acc.

End Script.

Arguments is_user_review {Instant} _ _.
Arguments submitted_in_range {Instant} _ _ _ _.
Arguments merged_before_start {Instant} _ _ _ _.
Arguments count_review {Instant} _ _.
Arguments review_loop {Instant} _ _ _ _ _ _ _.
Arguments merged_too_early {Instant} _ _ _ _.
Arguments pr_loop {Instant} _ _ _ _ _ _ _.
Arguments login_or_bad_token {Instant} _.
Arguments main_script {Instant} _ _ _.

(** ** Sample data *)

(** For examples, an instant is given by the year and month it has in the
    reference time zone. *)
Module Sample.

Definition Instant : Type := DateTime.
Definition astimezone (t : Instant) : DateTime := t.
Definition ym (y m : Z) : Instant := mkDateTime y m.

Definition approved (who : string) (t : Instant) : Review Instant :=
  mkReview who "APPROVED" t.

(** The scenario of the cutoff 2023-06 with reviewer alice: PR 10,
    merged 2023-08, with an approval of 2023-07; PR 9 merged 2023-05. *)
Definition pr10 : PullRequest Instant :=
  mkPullRequest 10 true (Some (ym 2023 8)) 120 30
                [approved "alice" (ym 2023 7)].
Definition pr9 : PullRequest Instant :=
  mkPullRequest 9 true (Some (ym 2023 5)) 500 1
                [approved "alice" (ym 2023 5)].

Definition world (pulls : list (PullRequest Instant)) : World Instant :=
  mkWorld "secret"
    (fun _ => mkGithub (Ok "alice")
       (fun _ => Ok (mkOrganization
          (fun _ => Ok (mkRepository pulls))))).

(** A client that refuses the token. *)
Definition world_bad_token : World Instant :=
  mkWorld "expired"
    (fun _ => mkGithub (Raise BadCredentialsException)
       (fun _ => Raise BadCredentialsException)).

(** PR 7, not merged, reviewed twice by alice within the window: changes
    requested, then approved. *)
Definition pr7 : PullRequest Instant :=
  mkPullRequest 7 false None 100 40
                [mkReview "alice" "CHANGES_REQUESTED" (ym 2023 7);
                 approved "alice" (ym 2023 8)].

(** Two pull requests that only delete lines, each approved by alice. *)
Definition pr21 : PullRequest Instant :=
  mkPullRequest 21 false None 0 12 [approved "alice" (ym 2023 7)].
Definition pr20 : PullRequest Instant :=
  mkPullRequest 20 false None 0 3 [approved "alice" (ym 2023 7)].

(** Three pull requests approved by alice; the first two have the same
    number of additions. *)
Definition pr32 : PullRequest Instant :=
  mkPullRequest 32 false None 50 1 [approved "alice" (ym 2023 9)].
Definition pr31 : PullRequest Instant :=
  mkPullRequest 31 false None 50 2 [approved "alice" (ym 2023 8)].
Definition pr30 : PullRequest Instant :=
  mkPullRequest 30 false None 20 3 [approved "alice" (ym 2023 8)].

(** PR 40: a comment by alice and an approval by bob, both long before
    the cutoff, then an approval by alice in the window. *)
Definition old_comment : Review Instant :=
  mkReview "alice" "COMMENTED" (ym 2019 1).
Definition pr40 : PullRequest Instant :=
  mkPullRequest 40 false None 8 9
                [old_comment; approved "bob" (ym 2018 3);
                 approved "alice" (ym 2023 6)].

(** PR 50: an approval by alice before the cutoff, between two in the
    window. *)
Definition early_approval : Review Instant := approved "alice" (ym 2023 5).
Definition pr50 : PullRequest Instant :=
  mkPullRequest 50 false None 11 4
                [approved "alice" (ym 2023 6); early_approval;
                 approved "alice" (ym 2023 7)].

(** PR 60: a comment by alice and an approval by bob, in the window. *)
Definition pr60 : PullRequest Instant :=
  mkPullRequest 60 true (Some (ym 2023 9)) 5 5
                [mkReview "alice" "COMMENTED" (ym 2023 9);
                 approved "bob" (ym 2023 9)].

Definition args_2023_06 : Args := mkArgs "ESCOMP/CAM" "202306" None.

End Sample.

(** ** What the loops are expected to compute *)

(** Lexicographic order on (year, month). *)
Definition ym_lt (a b : DateTime) : Prop :=
  year a < year b \/ (year a = year b /\ month a < month b).

Definition ym_le (a b : DateTime) : Prop :=
  year a < year b \/ (year a = year b /\ month a <= month b).

(** The month before [(y, m)]. *)
Definition month_before (d : DateTime) : DateTime :=
  if month d =? 1 then mkDateTime (year d - 1) 12
  else mkDateTime (year d) (month d - 1).

(** Decimal digits, the string that writes them and the number they
    write. *)
Definition digit_char (d : Z) : ascii := ascii_of_nat (Z.to_nat (48 + d)).

Fixpoint digits_string (ds : list Z) : string :=
  match ds with
  | [] => EmptyString
  | d :: ds' => String (digit_char d) (digits_string ds')
  end.

Definition decimal_value (ds : list Z) : Z :=
  fold_left (fun a d => 10 * a + d) ds 0.

(** A well-formed start date: four digits of the year, two of the month. *)
Definition yyyymm (y1 y2 y3 y4 m1 m2 : Z) : string :=
  digits_string [y1; y2; y3; y4; m1; m2].

Definition is_decimal_digit (d : Z) : Prop := 0 <= d <= 9.

Section Expected.

Variable Instant : Type.
Variable astimezone : Instant -> DateTime.
Variable user : string.
Variable start_year start_month : Z.

Definition cutoff : DateTime := mkDateTime start_year start_month.

(** A review that ends the scan: by the user, not a comment, and
    submitted before the cutoff. *)
Definition ends_scan (review : Review Instant) : bool :=
  is_user_review user review
  && negb (submitted_in_range astimezone start_year start_month review).

(** The reviews of one pull request that are counted: the ones by the
    user that are not comments, up to the first that ends the scan. *)
Fixpoint counted_reviews (reviews : list (Review Instant))
    : list (Review Instant) :=
  match reviews with
  | [] => []
  | review :: rest =>
      if ends_scan review then []
      else if is_user_review user review
           then review :: counted_reviews rest
           else counted_reviews rest
  end.

(** A merged pull request whose merge date is before the cutoff, or
    cannot be read. *)
Definition closes_scan (pr : PullRequest Instant) : bool :=
  merged pr
  && match merged_at pr with
     | Some t => merged_before_start astimezone start_year start_month t
     | None => true
     end.

(** A pull request that is merged has a merge date. *)
Definition has_merge_date (pr : PullRequest Instant) : Prop :=
  merged pr = true -> merged_at pr <> None.

(** The pull requests whose reviews are looked at, in scan order. *)
Fixpoint scanned (pulls : list (PullRequest Instant))
    : list (PullRequest Instant) :=
  match pulls with
  | [] => []
  | pr :: rest =>
      if closes_scan pr then []
      else pr :: (if existsb ends_scan (get_reviews pr) then []
                  else scanned rest)
  end.

(** The pull request of every counted review, in scan order: a pull
    request is listed once per counted review. *)
Definition contributions (pulls : list (PullRequest Instant))
    : list (PullRequest Instant) :=
  flat_map (fun pr => map (fun _ => pr) (counted_reviews (get_reviews pr)))
           (scanned pulls).

(** The distinct pull requests with at least one counted review. *)
Definition reviewed_prs (pulls : list (PullRequest Instant))
    : list (PullRequest Instant) :=
  filter (fun pr => match counted_reviews (get_reviews pr) with
                    | [] => false
                    | _ :: _ => true
                    end)
         (scanned pulls).

Definition sum_of (f : PullRequest Instant -> Z)
    (l : list (PullRequest Instant)) : Z :=
  fold_right (fun pr s => f pr + s) 0 l.

(** [m] is the largest [additions] of the pull requests in [l]. *)
Definition is_max_additions (l : list (PullRequest Instant)) (m : Z) : Prop :=
  (exists pr, In pr l /\ additions pr = m)
  /\ forall pr, In pr l -> additions pr <= m.

(** The first pull request of [l] with [m] additions. *)
Definition first_with_additions (m : Z) (l : list (PullRequest Instant))
    : option (PullRequest Instant) :=
  find (fun pr => additions pr =? m) l.

(** Counting the same pull request once per element of [l]. *)
Definition count_each {A : Type} (pr : PullRequest Instant) (l : list A)
    (acc : Accumulator) : Accumulator :=
  fold_left (fun a _ => count_review pr a) l acc.

(** Counting every pull request of [l], from left to right. *)
Definition count_all (l : list (PullRequest Instant)) (acc : Accumulator)
    : Accumulator :=
  fold_left (fun a pr => count_review pr a) l acc.

End Expected.

Arguments cutoff _ _ : clear implicits.
Arguments ends_scan {Instant} _ _ _ _ _.
Arguments counted_reviews {Instant} _ _ _ _ _.
Arguments closes_scan {Instant} _ _ _ _.
Arguments has_merge_date {Instant} _.
Arguments scanned {Instant} _ _ _ _ _.
Arguments contributions {Instant} _ _ _ _ _.
Arguments reviewed_prs {Instant} _ _ _ _ _.
Arguments sum_of {Instant} _ _.
Arguments is_max_additions {Instant} _ _.
Arguments first_with_additions {Instant} _ _.
Arguments count_each {Instant A} _ _ _.
Arguments count_all {Instant} _ _.

(** The run gets as far as the loop: the arguments are accepted, the
    client answers, and [pulls] are the pull requests it delivers for the
    repository; [user] is the user whose reviews are collected. *)
Definition reaches_scan {Instant : Type} (args : Args) (w : World Instant)
    (start_year start_month : Z) (user : string)
    (pulls : list (PullRequest Instant)) : Prop :=
  PyStr.contains "/" (repository args) = true
  /\ start_year_of args = Ok start_year
  /\ start_month_of args = Ok start_month
  /\ exists login org_name repo_name others org repo,
       PyStr.rsplit "/" (repository args) = org_name :: repo_name :: others
       /\ get_user_login (connect w (getpass w)) = Ok login
       /\ user = match given_username args with
                 | Some name => name
                 | None => login
                 end
       /\ get_organization (connect w (getpass w)) org_name = Ok org
       /\ get_repo org repo_name = Ok repo
       /\ get_pulls repo = pulls.

(** ** The text of the summary, and further notions *)

Module PyFmt.

(** Decimal digits of [n >= 0], least significant first; [fuel] bounds
    their number. *)
Fixpoint digits_lsf (fuel : nat) (n : Z) : list Z :=
  match fuel with
  | O => []
  | S fuel' =>
      if n <? 10 then [n] else (n mod 10) :: digits_lsf fuel' (n / 10)
  end.

(** Decimal digits of [n >= 0], most significant first. *)
Definition digits (n : Z) : list Z :=
  rev (digits_lsf (S (Z.to_nat (Z.log2 n))) n).

(** [str(n)]. *)
Definition str (n : Z) : string :=
  if n <? 0 then String "-" (digits_string (digits (- n)))
  else digits_string (digits n).

(** The digits with a comma before every group of three that is not the
    first. *)
Fixpoint group_thousands (ds : list Z) : string :=
  match ds with
  | [] => EmptyString
  | d :: ds' =>
      String (digit_char d)
        (if negb (List.length ds' =? 0)%nat
            && (List.length ds' mod 3 =? 0)%nat
         then String "," (group_thousands ds')
         else group_thousands ds')
  end.

(** [f"{n:,}"], as lines 222-229 print the counters. *)
Definition format_thousands (n : Z) : string :=
  if n <? 0 then String "-" (group_thousands (digits (- n)))
  else group_thousands (digits n).


(** [c.join(parts)] for a one-character [c]. *)
Fixpoint join (c : ascii) (parts : list string) : string :=
  match parts with
  | [] => EmptyString
  | p :: ps =>
      match ps with
      | [] => p
      | _ :: _ => (p ++ String c (join c ps))%string
      end
  end.

End PyFmt.

(** The pull request [pr] as it would be without a merge. *)
Definition unmerged {Instant : Type} (pr : PullRequest Instant)
    : PullRequest Instant :=
  mkPullRequest (number pr) false None (additions pr) (deletions pr)
                (get_reviews pr).

(** A start date with a character between year and month. *)
Definition yyyy_mm (y1 y2 y3 y4 : Z) (sep : ascii) (m1 m2 : Z) : string :=
  (digits_string [y1; y2; y3; y4] ++ String sep (digits_string [m1; m2]))%string.

(** Clients that fail after the login, for examples. *)
Module FailingSample.

Definition world_without_organization : World Sample.Instant :=
  mkWorld "secret"
    (fun _ => mkGithub (Ok "alice") (fun _ => Raise UnknownObjectException)).

Definition world_without_repository : World Sample.Instant :=
  mkWorld "secret"
    (fun _ => mkGithub (Ok "alice")
       (fun _ => Ok (mkOrganization (fun _ => Raise UnknownObjectException)))).

Definition world_rate_limited : World Sample.Instant :=
  mkWorld "secret"
    (fun _ => mkGithub (Raise (OtherException "RateLimitExceededException"))
       (fun _ => Raise (OtherException "RateLimitExceededException"))).

End FailingSample.

(** * Properties *)

(** ** The Python helpers on sample inputs *)

Example int_samples :
  PyStr.int "2023" = Ok 2023 /\ PyStr.int " -1_0 " = Ok (-10) /\
  PyStr.int "1__0"
  = Raise (ValueError "invalid literal for int() with base 10: '1__0'") /\
  PyStr.int "" = Raise (ValueError "invalid literal for int() with base 10: ''").
Proof. repeat split; reflexivity. Qed.

Example string_samples :
  PyStr.rsplit "/" "ESCOMP/CAM" = ["ESCOMP"; "CAM"] /\
  PyStr.rsplit "/" "a//b" = ["a"; ""; "b"] /\
  PyStr.rsplit "/" "nosep" = ["nosep"] /\
  PyStr.slice 0 4 "202312" = "2023" /\ PyStr.slice_from 5 "202312" = "2" /\
  PyStr.slice_from 5 "2023" = "".
Proof. repeat split; reflexivity. Qed.

Example scenario_2023_06 :
  main_script Sample.astimezone (mkArgs "ESCOMP/CAM" "202306" None)
              (Sample.world [Sample.pr10; Sample.pr9])
  = ([Getpass "Auth. Token:"; ApiGetUser; ApiGetOrganization "ESCOMP";
      ApiGetRepo "CAM"; ApiGetPulls;
      PrintLine "Looping over PRs for ESCOMP/CAM..."; PrintOnPR 10;
      PrintLine "...Finished ESCOMP/CAM PR loop."; ApiClose;
      PrintSummary (mkAccumulator 1 120 30 120 10)],
     Ok (mkAccumulator 1 120 30 120 10)).
Proof. reflexivity. Qed.

(** ** Computations *)

Lemma bind_ret {A B : Type} (a : A) (k : A -> M B) : bind (ret a) k = k a.
Proof. unfold bind, ret. simpl. now destruct (k a). Qed.

Lemma bind_lift_ok {A B : Type} (a : A) (k : A -> M B) :
  bind (lift (Ok a)) k = k a.
Proof. exact (bind_ret a k). Qed.

Lemma bind_raise {A B : Type} (e : exn) (k : A -> M B) :
  bind (raise e) k = raise e.
Proof. reflexivity. Qed.

Lemma bind_emit {B : Type} (ev : Event) (k : unit -> M B) :
  bind (emit ev) k = (ev :: fst (k tt), snd (k tt)).
Proof. reflexivity. Qed.

(** ** The comparisons of the script and the order on (year, month) *)

Section Order.

Variable Instant : Type.
Variable astimezone : Instant -> DateTime.
Variable start_year start_month : Z.

Lemma submitted_in_range_iff (review : Review Instant) :
  submitted_in_range astimezone start_year start_month review = true
  <-> ym_le (cutoff start_year start_month)
            (astimezone (submitted_at review)).
Proof.
  unfold submitted_in_range, ym_le, cutoff; simpl.
  rewrite orb_true_iff, andb_true_iff, Z.gtb_ltb, Z.geb_leb.
  rewrite Z.ltb_lt, Z.eqb_eq, Z.leb_le. intuition lia.
Qed.

Lemma merged_before_start_iff (t : Instant) :
  merged_before_start astimezone start_year start_month t = true
  <-> ym_lt (astimezone t) (cutoff start_year start_month).
Proof.
  unfold merged_before_start, ym_lt, cutoff; simpl.
  rewrite orb_true_iff, andb_true_iff, !Z.ltb_lt, Z.eqb_eq. tauto.
Qed.

Lemma ym_le_dec (a b : DateTime) : ym_le a b \/ ym_lt b a.
Proof. unfold ym_le, ym_lt. lia. Qed.

Lemma ym_lt_not_le (a b : DateTime) : ym_lt b a <-> ~ ym_le a b.
Proof. unfold ym_le, ym_lt. lia. Qed.

Lemma month_before_lt (d : DateTime) : ym_lt (month_before d) d.
Proof.
  unfold month_before, ym_lt.
  destruct (Z.eqb_spec (month d) 1); simpl; lia.
Qed.

End Order.

(** ** The loops and the pull requests they count *)

Section LoopFacts.

Variable Instant : Type.
Variable astimezone : Instant -> DateTime.
Variable user : string.
Variable start_year start_month : Z.

Local Notation "'PR'" := (PullRequest Instant).
Local Notation "'reviews_loop'" :=
  (review_loop astimezone user start_year start_month).
Local Notation "'pulls_loop'" :=
  (pr_loop astimezone user start_year start_month).
Local Notation "'ends'" := (ends_scan astimezone user start_year start_month).
Local Notation "'counted'" :=
  (counted_reviews astimezone user start_year start_month).
Local Notation "'closes'" := (closes_scan astimezone start_year start_month).

Lemma review_loop_counted (pr : PR) (reviews : list (Review Instant))
    (acc : Accumulator) :
  reviews_loop pr reviews acc
  = (count_each pr (counted reviews) acc, existsb ends reviews).
Proof.
  revert acc. induction reviews as [|r rest IH]; intros acc; simpl.
  - reflexivity.
  - unfold ends_scan.
    destruct (is_user_review user r); simpl.
    + destruct (submitted_in_range astimezone start_year start_month r);
        simpl; [apply IH | reflexivity].
    + apply IH.
Qed.

Lemma review_loop_app (pr : PR) (rs1 rs2 : list (Review Instant))
    (acc : Accumulator) :
  reviews_loop pr (rs1 ++ rs2) acc
  = (if snd (reviews_loop pr rs1 acc) then reviews_loop pr rs1 acc
     else reviews_loop pr rs2 (fst (reviews_loop pr rs1 acc))).
Proof.
  revert acc. induction rs1 as [|r rest IH]; intros acc; simpl.
  - reflexivity.
  - destruct (is_user_review user r).
    + destruct (submitted_in_range astimezone start_year start_month r).
      * apply IH.
      * reflexivity.
    + apply IH.
Qed.

(** One turn of the loop over the pull requests, written out. *)
Lemma pr_loop_cons (pr : PR) (rest : list PR) (acc : Accumulator) :
  pulls_loop (pr :: rest) acc false
  = if merged pr then
      match merged_at pr with
      | None =>
          raise (AttributeError
                   "'NoneType' object has no attribute 'astimezone'")
      | Some t =>
          if merged_before_start astimezone start_year start_month t
          then ret acc
          else
            let next := pulls_loop rest
                          (fst (reviews_loop pr (get_reviews pr) acc))
                          (snd (reviews_loop pr (get_reviews pr) acc)) in
            (PrintOnPR (number pr) :: fst next, snd next)
      end
    else
      let next := pulls_loop rest
                    (fst (reviews_loop pr (get_reviews pr) acc))
                    (snd (reviews_loop pr (get_reviews pr) acc)) in
      (PrintOnPR (number pr) :: fst next, snd next).
Proof.
  assert (body : forall next : M Accumulator,
    (emit (PrintOnPR (number pr)) ;;; next)
    = (PrintOnPR (number pr) :: fst next, snd next)).
  { intros next. apply bind_emit. }
  assert (turn :
    match get_reviews pr with
    | [] => pulls_loop rest acc false
    | r :: rs =>
        let (acc', stop_loop') := reviews_loop pr (r :: rs) acc in
        pulls_loop rest acc' stop_loop'
    end
    = pulls_loop rest (fst (reviews_loop pr (get_reviews pr) acc))
                 (snd (reviews_loop pr (get_reviews pr) acc))).
  { destruct (get_reviews pr) as [|r rs]; [reflexivity|].
    now destruct (reviews_loop pr (r :: rs) acc). }
  cbv zeta. rewrite <- turn.
  cbn [pr_loop]. unfold merged_too_early.
  destruct (merged pr).
  - destruct (merged_at pr) as [t|].
    + rewrite bind_ret.
      destruct (merged_before_start astimezone start_year start_month t);
        [reflexivity | apply body].
    + reflexivity.
  - rewrite bind_ret. apply body.
Qed.

Lemma pr_loop_stopped (pulls : list PR) (acc : Accumulator) :
  pulls_loop pulls acc true = ret acc.
Proof. now destruct pulls. Qed.

End LoopFacts.

(** ** The result of a scan *)

Section ScanFacts.

Variable Instant : Type.
Variable astimezone : Instant -> DateTime.
Variable user : string.
Variable start_year start_month : Z.

Local Notation "'PR'" := (PullRequest Instant).
Local Notation "'reviews_loop'" :=
  (review_loop astimezone user start_year start_month).
Local Notation "'pulls_loop'" :=
  (pr_loop astimezone user start_year start_month).
Local Notation "'ends'" := (ends_scan astimezone user start_year start_month).
Local Notation "'counted'" :=
  (counted_reviews astimezone user start_year start_month).
Local Notation "'closes'" := (closes_scan astimezone start_year start_month).
Local Notation "'seen'" := (scanned astimezone user start_year start_month).
Local Notation "'contrib'" :=
  (contributions astimezone user start_year start_month).

Lemma count_all_app (l1 l2 : list PR) (acc : Accumulator) :
  count_all (l1 ++ l2) acc = count_all l2 (count_all l1 acc).
Proof. apply fold_left_app. Qed.

Lemma count_all_same {A : Type} (pr : PR) (l : list A) (acc : Accumulator) :
  count_all (map (fun _ => pr) l) acc = count_each pr l acc.
Proof.
  revert acc. induction l as [|a l IH]; intros acc; simpl; auto.
Qed.

Lemma contributions_cons (pr : PR) (rest : list PR) :
  contrib (pr :: rest)
  = if closes pr then []
    else map (fun _ => pr) (counted (get_reviews pr))
         ++ (if existsb ends (get_reviews pr) then [] else contrib rest).
Proof.
  unfold contributions. simpl.
  destruct (closes pr); [reflexivity|]. simpl.
  destruct (existsb ends (get_reviews pr)); reflexivity.
Qed.

(** The progress lines name the scanned pull requests. *)
Lemma pr_loop_events (pulls : list PR) (acc : Accumulator) :
  fst (pulls_loop pulls acc false) = map PrintOnPR (map number (seen pulls)).
Proof.
  revert acc. induction pulls as [|pr rest IH]; intros acc.
  - reflexivity.
  - rewrite pr_loop_cons. simpl. unfold closes_scan.
    rewrite review_loop_counted. simpl.
    assert (next : forall a,
      fst (pulls_loop rest a (existsb ends (get_reviews pr)))
      = map PrintOnPR (map number
          (if existsb ends (get_reviews pr) then [] else seen rest))).
    { intros a. destruct (existsb ends (get_reviews pr)).
      - now rewrite pr_loop_stopped.
      - apply IH. }
    destruct (merged pr); simpl.
    + destruct (merged_at pr) as [t|]; [|reflexivity].
      destruct (merged_before_start astimezone start_year start_month t);
        simpl; [reflexivity | now rewrite next].
    + now rewrite next.
Qed.

(** A scan ends with the counters of the counted pull requests, or with
    the [AttributeError] of a merged pull request without merge date. *)
Lemma pr_loop_result (pulls : list PR) (acc : Accumulator) :
  snd (pulls_loop pulls acc false) = Ok (count_all (contrib pulls) acc)
  \/ snd (pulls_loop pulls acc false)
     = Raise (AttributeError
                "'NoneType' object has no attribute 'astimezone'").
Proof.
  revert acc. induction pulls as [|pr rest IH]; intros acc.
  - left. reflexivity.
  - rewrite pr_loop_cons, contributions_cons. unfold closes_scan.
    rewrite review_loop_counted. simpl.
    assert (next : forall a,
      snd (pulls_loop rest a (existsb ends (get_reviews pr)))
      = Ok (count_all
              (if existsb ends (get_reviews pr) then [] else contrib rest) a)
      \/ snd (pulls_loop rest a (existsb ends (get_reviews pr)))
         = Raise (AttributeError
                    "'NoneType' object has no attribute 'astimezone'")).
    { intros a. destruct (existsb ends (get_reviews pr)).
      - left. now rewrite pr_loop_stopped.
      - apply IH. }
    destruct (merged pr); simpl.
    + destruct (merged_at pr) as [t|]; [|right; reflexivity].
      destruct (merged_before_start astimezone start_year start_month t);
        simpl; [left; reflexivity|].
      rewrite count_all_app, count_all_same. apply next.
    + rewrite count_all_app, count_all_same. apply next.
Qed.

(** With merge dates where they are due, a scan does not raise. *)
Lemma pr_loop_total (pulls : list PR) (acc : Accumulator) :
  Forall has_merge_date pulls ->
  snd (pulls_loop pulls acc false) = Ok (count_all (contrib pulls) acc).
Proof.
  intros wf. revert acc.
  induction wf as [|pr rest Hpr _ IH]; intros acc.
  - reflexivity.
  - rewrite pr_loop_cons, contributions_cons. unfold closes_scan.
    rewrite review_loop_counted. simpl.
    assert (next : forall a,
      snd (pulls_loop rest a (existsb ends (get_reviews pr)))
      = Ok (count_all
              (if existsb ends (get_reviews pr) then [] else contrib rest) a)).
    { intros a. destruct (existsb ends (get_reviews pr)).
      - now rewrite pr_loop_stopped.
      - apply IH. }
    unfold has_merge_date in Hpr.
    destruct (merged pr); simpl.
    + destruct (merged_at pr) as [t|]; [|now destruct Hpr].
      destruct (merged_before_start astimezone start_year start_month t);
        simpl; [reflexivity|].
      rewrite count_all_app, count_all_same. apply next.
    + rewrite count_all_app, count_all_same. apply next.
Qed.

Lemma pr_loop_ok (pulls : list PR) (acc acc' : Accumulator) :
  snd (pulls_loop pulls acc false) = Ok acc' ->
  acc' = count_all (contrib pulls) acc.
Proof.
  intros H. destruct (pr_loop_result pulls acc) as [E|E];
    rewrite E in H; congruence.
Qed.

(** *** The counters after counting a list of pull requests *)

Lemma count_all_num_reviewed_prs (l : list PR) (acc : Accumulator) :
  num_reviewed_prs (count_all l acc)
  = num_reviewed_prs acc + Z.of_nat (List.length l).
Proof.
  revert acc. induction l as [|pr l IH]; intros acc.
  - simpl. lia.
  - change (count_all (pr :: l) acc) with (count_all l (count_review pr acc)).
    rewrite IH. simpl List.length. simpl num_reviewed_prs. lia.
Qed.

Lemma count_all_num_additions (l : list PR) (acc : Accumulator) :
  num_additions (count_all l acc) = num_additions acc + sum_of additions l.
Proof.
  revert acc. induction l as [|pr l IH]; intros acc.
  - simpl. lia.
  - change (count_all (pr :: l) acc) with (count_all l (count_review pr acc)).
    rewrite IH. simpl. lia.
Qed.

Lemma count_all_num_deletions (l : list PR) (acc : Accumulator) :
  num_deletions (count_all l acc) = num_deletions acc + sum_of deletions l.
Proof.
  revert acc. induction l as [|pr l IH]; intros acc.
  - simpl. lia.
  - change (count_all (pr :: l) acc) with (count_all l (count_review pr acc)).
    rewrite IH. simpl. lia.
Qed.

(** Pull requests that do not exceed the maximum leave it as it is. *)
Lemma count_all_max_kept (l : list PR) (acc : Accumulator) :
  (forall pr, In pr l -> additions pr <= max_pr_additions acc) ->
  max_pr_additions (count_all l acc) = max_pr_additions acc
  /\ max_pr_num (count_all l acc) = max_pr_num acc.
Proof.
  revert acc. induction l as [|pr l IH]; intros acc Hle.
  - now split.
  - change (count_all (pr :: l) acc) with (count_all l (count_review pr acc)).
    assert (Hpr : additions pr <= max_pr_additions acc)
      by (apply Hle; now left).
    assert (Hstep : max_pr_additions (count_review pr acc)
                    = max_pr_additions acc
                    /\ max_pr_num (count_review pr acc) = max_pr_num acc).
    { simpl. destruct (Z.gtb_spec (additions pr) (max_pr_additions acc));
        [lia | now split]. }
    destruct Hstep as [Ha Hn].
    destruct (IH (count_review pr acc)) as [Ha' Hn'].
    { intros q Hq. rewrite Ha. apply Hle. now right. }
    split; congruence.
Qed.

(** The maximum ends at the first pull request with the largest number
    of additions, when that number exceeds the initial maximum. *)
Lemma count_all_max_first (l : list PR) (acc : Accumulator) (m : Z) :
  max_pr_additions acc < m ->
  is_max_additions l m ->
  exists pr,
    first_with_additions m l = Some pr
    /\ max_pr_num (count_all l acc) = number pr
    /\ max_pr_additions (count_all l acc) = m.
Proof.
  revert acc. induction l as [|pr l IH]; intros acc Hlt [[q [Hq Hqm]] Hmax].
  - destruct Hq.
  - change (count_all (pr :: l) acc) with (count_all l (count_review pr acc)).
    unfold first_with_additions. simpl find.
    destruct (Z.eqb_spec (additions pr) m) as [Heq|Hne].
    + exists pr. split; [reflexivity|].
      assert (Hstep : max_pr_additions (count_review pr acc) = m
                      /\ max_pr_num (count_review pr acc) = number pr).
      { simpl. destruct (Z.gtb_spec (additions pr) (max_pr_additions acc));
          [now split | lia]. }
      destruct Hstep as [Ha Hn].
      destruct (count_all_max_kept l (count_review pr acc)) as [Ha' Hn'].
      { intros p Hp. rewrite Ha. apply Hmax. now right. }
      split; congruence.
    + assert (Hpr : additions pr < m).
      { assert (additions pr <= m) by (apply Hmax; now left). lia. }
      apply IH.
      * simpl. destruct (Z.gtb_spec (additions pr) (max_pr_additions acc)); lia.
      * split.
        -- exists q. split; [|exact Hqm].
           destruct Hq as [Hq|Hq]; [subst q; contradiction | exact Hq].
        -- intros p Hp. apply Hmax. now right.
Qed.

End ScanFacts.

(** ** What a scan depends on *)

Section Dependence.

Variable Instant : Type.
Variable astimezone : Instant -> DateTime.
Variable user : string.
Variable start_year start_month : Z.

Local Notation "'PR'" := (PullRequest Instant).
Local Notation "'reviews_loop'" :=
  (review_loop astimezone user start_year start_month).
Local Notation "'pulls_loop'" :=
  (pr_loop astimezone user start_year start_month).

(** The review loop reads the pull request only through the fields it
    adds up. *)
Lemma review_loop_with_reviews (pr : PR) (other reviews : list (Review Instant))
    (acc : Accumulator) :
  reviews_loop (with_reviews pr other) reviews acc
  = reviews_loop pr reviews acc.
Proof.
  revert acc. induction reviews as [|r rest IH]; intros acc; simpl.
  - reflexivity.
  - destruct (is_user_review user r);
      [destruct (submitted_in_range astimezone start_year start_month r)|];
      try reflexivity.
    + rewrite IH. reflexivity.
    + apply IH.
Qed.

(** Two lists of pull requests that the loop treats alike can be
    exchanged at the end of a scan. *)
Lemma pr_loop_app_congr (pre tail1 tail2 : list PR) :
  (forall acc, pulls_loop tail1 acc false = pulls_loop tail2 acc false) ->
  forall acc stop_loop,
    pulls_loop (pre ++ tail1) acc stop_loop
    = pulls_loop (pre ++ tail2) acc stop_loop.
Proof.
  intros Htail. induction pre as [|pr pre IH]; intros acc stop_loop.
  - destruct stop_loop; [now rewrite !pr_loop_stopped | apply Htail].
  - destruct stop_loop; [now rewrite !pr_loop_stopped|].
    rewrite <- !app_comm_cons, !pr_loop_cons. cbv zeta.
    rewrite !IH. reflexivity.
Qed.

(** A pull request with the same fields and reviews that the loop treats
    alike can take the place of another. *)
Lemma pr_loop_same_reviews (pr : PR) (reviews : list (Review Instant))
    (rest : list PR) (acc : Accumulator) :
  reviews_loop pr (get_reviews pr) acc = reviews_loop pr reviews acc ->
  pulls_loop (pr :: rest) acc false
  = pulls_loop (with_reviews pr reviews :: rest) acc false.
Proof.
  intros Hsame. rewrite !pr_loop_cons. cbv zeta. simpl.
  rewrite review_loop_with_reviews, Hsame. reflexivity.
Qed.

(** The flag is raised only by a review that ends the scan. *)
Lemma review_loop_stop_cause (pr : PR) (reviews : list (Review Instant))
    (acc : Accumulator) :
  snd (reviews_loop pr reviews acc) = true ->
  exists review,
    In review reviews
    /\ user_login review = user
    /\ state review <> "COMMENTED"
    /\ ym_lt (astimezone (submitted_at review))
             (cutoff start_year start_month).
Proof.
  rewrite review_loop_counted. simpl. rewrite existsb_exists.
  intros [r [Hin Hends]]. exists r. split; [exact Hin|].
  unfold ends_scan, is_user_review in Hends.
  rewrite !andb_true_iff, !negb_true_iff in Hends.
  destruct Hends as [[Hlogin Hstate] Hrange].
  apply String.eqb_eq in Hlogin. apply String.eqb_neq in Hstate.
  repeat split; try assumption.
  apply ym_lt_not_le. intros Hle.
  apply submitted_in_range_iff in Hle. congruence.
Qed.

Lemma is_user_review_true (review : Review Instant) :
  user_login review = user -> state review <> "COMMENTED" ->
  is_user_review user review = true.
Proof.
  intros Hlogin Hstate. unfold is_user_review.
  apply String.eqb_eq in Hlogin. apply String.eqb_neq in Hstate.
  now rewrite Hlogin, Hstate.
Qed.

Lemma is_user_review_false (review : Review Instant) :
  user_login review <> user \/ state review = "COMMENTED" ->
  is_user_review user review = false.
Proof.
  unfold is_user_review. intros [Hlogin|Hstate].
  - apply String.eqb_neq in Hlogin. now rewrite Hlogin.
  - apply String.eqb_eq in Hstate. rewrite Hstate. apply andb_false_r.
Qed.

End Dependence.

(** ** Properties of the scan *)

Section ScanProperties.

Variable Instant : Type.
Variable astimezone : Instant -> DateTime.
Variable user : string.
Variable start_year start_month : Z.

Local Notation "'PR'" := (PullRequest Instant).
Local Notation "'reviews_loop'" :=
  (review_loop astimezone user start_year start_month).
Local Notation "'pulls_loop'" :=
  (pr_loop astimezone user start_year start_month).
Local Notation "'contrib'" :=
  (contributions astimezone user start_year start_month).
Local Notation "'the_cutoff'" := (cutoff start_year start_month).

(** C3: a review by the user that is not a comment is counted exactly
    when the (year, month) of its submission, in the reference time zone,
    is not before the cutoff in lexicographic order; otherwise the loop is
    left with the flag raised.  A review of the cutoff month is counted,
    one of the month before is not. *)
Theorem C3_counted_iff_not_before_cutoff
    (pr : PR) (review : Review Instant) (rest : list (Review Instant))
    (acc : Accumulator) :
  user_login review = user ->
  state review <> "COMMENTED" ->
  let submit_date := astimezone (submitted_at review) in
  (ym_le the_cutoff submit_date ->
   reviews_loop pr (review :: rest) acc
   = reviews_loop pr rest (count_review pr acc))
  /\ (~ ym_le the_cutoff submit_date ->
      reviews_loop pr (review :: rest) acc = (acc, true))
  /\ (num_reviewed_prs (fst (reviews_loop pr [review] acc))
      = num_reviewed_prs acc + 1
      <-> ym_le the_cutoff submit_date)
  /\ (submit_date = the_cutoff ->
      reviews_loop pr (review :: rest) acc
      = reviews_loop pr rest (count_review pr acc))
  /\ (submit_date = month_before the_cutoff ->
      reviews_loop pr (review :: rest) acc = (acc, true)).
Proof.
  intros Hlogin Hstate submit_date.
  assert (Hmine := is_user_review_true Instant user review Hlogin Hstate).
  assert (Hin : ym_le the_cutoff submit_date ->
                reviews_loop pr (review :: rest) acc
                = reviews_loop pr rest (count_review pr acc)).
  { intros Hle. apply submitted_in_range_iff in Hle.
    simpl. now rewrite Hmine, Hle. }
  assert (Hout : ~ ym_le the_cutoff submit_date ->
                 reviews_loop pr (review :: rest) acc = (acc, true)).
  { intros Hnle. simpl. rewrite Hmine.
    destruct (submitted_in_range astimezone start_year start_month review)
      eqn:Hrange; [|reflexivity].
    apply submitted_in_range_iff in Hrange. contradiction. }
  repeat split.
  - exact Hin.
  - exact Hout.
  - intros Hcount.
    destruct (ym_le_dec the_cutoff submit_date) as [Hle|Hlt]; [exact Hle|].
    apply ym_lt_not_le in Hlt. simpl in Hcount. rewrite Hmine in Hcount.
    destruct (submitted_in_range astimezone start_year start_month review)
      eqn:Hrange.
    + now apply submitted_in_range_iff in Hrange.
    + simpl in Hcount. lia.
  - intros Hle. apply submitted_in_range_iff in Hle.
    simpl. now rewrite Hmine, Hle.
  - intros Heq. apply Hin. rewrite Heq. unfold ym_le. lia.
  - intros Heq. apply Hout. apply ym_lt_not_le. rewrite Heq.
    apply month_before_lt.
Qed.

(** C4: a merged pull request whose merge date, in the reference time
    zone, is before the cutoff in lexicographic (year, month) order ends
    the loop over the pull requests: the scan of a sequence that holds
    such a pull request is the scan of the pull requests before it, with
    the same counters and the same progress lines. *)
Theorem C4_merged_before_cutoff_stops_scan
    (pre : list PR) (pr : PR) (post : list PR) (t : Instant) :
  merged pr = true ->
  merged_at pr = Some t ->
  ym_lt (astimezone t) the_cutoff ->
  (forall acc, pulls_loop (pr :: post) acc false = ret acc)
  /\ pulls_loop (pre ++ pr :: post) initial_counters false
     = pulls_loop pre initial_counters false.
Proof.
  intros Hmerged Hat Hlt.
  apply merged_before_start_iff in Hlt.
  assert (Hstop : forall acc, pulls_loop (pr :: post) acc false = ret acc).
  { intros acc. rewrite pr_loop_cons. now rewrite Hmerged, Hat, Hlt. }
  split; [exact Hstop|].
  rewrite <- (app_nil_r pre) at 2.
  apply pr_loop_app_congr. intros acc. now rewrite Hstop.
Qed.

(** C5: a review by the user that is not a comment and is dated before
    the cutoff ends both loops at once: the review loop is left with the
    flag raised and the counters as they are, the loop over the pull
    requests is left at its next turn, and the scan is the one of the
    input cut after that review. *)
Theorem C5_review_before_cutoff_ends_both_loops
    (pre : list PR) (pr : PR) (rs1 : list (Review Instant))
    (review : Review Instant) (rs2 : list (Review Instant))
    (post : list PR) :
  get_reviews pr = rs1 ++ review :: rs2 ->
  user_login review = user ->
  state review <> "COMMENTED" ->
  ym_lt (astimezone (submitted_at review)) the_cutoff ->
  (forall acc, reviews_loop pr (review :: rs2) acc = (acc, true))
  /\ (forall acc, pulls_loop post acc true = ret acc)
  /\ pulls_loop (pre ++ pr :: post) initial_counters false
     = pulls_loop (pre ++ [with_reviews pr (rs1 ++ [review])])
                  initial_counters false.
Proof.
  intros Hreviews Hlogin Hstate Hlt.
  assert (Hmine := is_user_review_true Instant user review Hlogin Hstate).
  assert (Hrange :
    submitted_in_range astimezone start_year start_month review = false).
  { destruct (submitted_in_range astimezone start_year start_month review)
      eqn:E; [|reflexivity].
    apply submitted_in_range_iff in E. now apply ym_lt_not_le in Hlt. }
  assert (Hleave : forall tail acc,
            reviews_loop pr (review :: tail) acc = (acc, true)).
  { intros tail acc. simpl. now rewrite Hmine, Hrange. }
  split; [intros acc; apply Hleave|].
  split; [intros acc; apply pr_loop_stopped|].
  apply pr_loop_app_congr. intros acc.
  assert (Hcut : reviews_loop pr (get_reviews pr) acc
                 = reviews_loop pr (rs1 ++ [review]) acc).
  { rewrite Hreviews, !review_loop_app, !Hleave. reflexivity. }
  rewrite (pr_loop_same_reviews Instant astimezone user start_year
             start_month pr (rs1 ++ [review]) post acc Hcut).
  rewrite !pr_loop_cons. cbv zeta.
  assert (Hflag : snd (reviews_loop (with_reviews pr (rs1 ++ [review]))
                         (get_reviews (with_reviews pr (rs1 ++ [review])))
                         acc) = true).
  { simpl get_reviews. rewrite review_loop_with_reviews, review_loop_app.
    rewrite Hleave.
    now destruct (snd (reviews_loop pr rs1 acc)) eqn:E. }
  rewrite Hflag, !pr_loop_stopped. reflexivity.
Qed.

(** C10: a review by somebody else, or a comment, is passed over
    whatever its date: the loops run as if it were not in the list, so it
    never ends the scan; and when the review loop raises the flag, one of
    the reviews is by the user, not a comment, and dated before the
    cutoff. *)
Theorem C10_other_reviews_never_stop_scan
    (pre : list PR) (pr : PR) (rs1 : list (Review Instant))
    (review : Review Instant) (rs2 : list (Review Instant))
    (post : list PR) :
  get_reviews pr = rs1 ++ review :: rs2 ->
  user_login review <> user \/ state review = "COMMENTED" ->
  (forall acc,
     reviews_loop pr (review :: rs2) acc = reviews_loop pr rs2 acc)
  /\ pulls_loop (pre ++ pr :: post) initial_counters false
     = pulls_loop (pre ++ with_reviews pr (rs1 ++ rs2) :: post)
                  initial_counters false
  /\ (forall (other : PR) (reviews : list (Review Instant))
             (acc : Accumulator),
        snd (reviews_loop other reviews acc) = true ->
        exists r,
          In r reviews /\ user_login r = user /\ state r <> "COMMENTED"
          /\ ym_lt (astimezone (submitted_at r)) the_cutoff).
Proof.
  intros Hreviews Hother.
  assert (Hskip := is_user_review_false Instant user review Hother).
  assert (Hpass : forall acc,
            reviews_loop pr (review :: rs2) acc = reviews_loop pr rs2 acc).
  { intros acc. simpl. now rewrite Hskip. }
  split; [exact Hpass|].
  split; [|intros other reviews acc; apply review_loop_stop_cause].
  apply pr_loop_app_congr. intros acc.
  apply pr_loop_same_reviews.
  rewrite Hreviews, !review_loop_app, Hpass. reflexivity.
Qed.

(** C9, as the code has it: when the largest number of additions of the
    counted pull requests is positive, [max_pr_num] is the number of the
    first counted pull request, in scan order, with that many additions,
    and [max_pr_additions] is that number of additions; when no review is
    counted, or the largest number of additions is not positive,
    [max_pr_num] stays 0. *)
Theorem C9_max_pr_num_first_positive_maximum
    (pulls : list PR) (acc : Accumulator) :
  snd (pulls_loop pulls initial_counters false) = Ok acc ->
  (forall m, is_max_additions (contrib pulls) m -> 0 < m ->
     exists pr,
       first_with_additions m (contrib pulls) = Some pr
       /\ max_pr_num acc = number pr
       /\ max_pr_additions acc = m)
  /\ (contrib pulls = [] -> max_pr_num acc = 0)
  /\ (forall m, is_max_additions (contrib pulls) m -> m <= 0 ->
        max_pr_num acc = 0).
Proof.
  intros Hscan. apply pr_loop_ok in Hscan. subst acc.
  split; [|split].
  - intros m Hmax Hpos. now apply count_all_max_first.
  - intros Hnone. now rewrite Hnone.
  - intros m [_ Hmax] Hle.
    destruct (count_all_max_kept Instant (contrib pulls) initial_counters)
      as [_ Hnum]; [|exact Hnum].
    intros pr Hin. simpl. specialize (Hmax pr Hin). lia.
Qed.

End ScanProperties.

(** ** The script around the loop *)

Lemma snd_bind {A B : Type} (m : M A) (k : A -> M B) :
  snd (bind m k)
  = match snd m with
    | Ok a => snd (k a)
    | Raise e => Raise e
    end.
Proof. destruct m as [t [a|e]]; reflexivity. Qed.

Lemma contains_count (c : ascii) (s : string) :
  PyStr.contains c s = false <-> PyStr.count c s = 0%nat.
Proof.
  induction s as [|d s IH]; simpl.
  - tauto.
  - destruct (Ascii.eqb d c); simpl; [split; discriminate | exact IH].
Qed.

Lemma rsplit_not_nil (c : ascii) (s : string) : PyStr.rsplit c s <> [].
Proof.
  destruct s as [|d s]; simpl; [discriminate|].
  destruct (Ascii.eqb d c); [discriminate|].
  destruct (PyStr.rsplit c s); discriminate.
Qed.

(** A string with a separator splits into two parts at least. *)
Lemma rsplit_two (c : ascii) (s : string) :
  PyStr.contains c s = true ->
  exists a b rest, PyStr.rsplit c s = a :: b :: rest.
Proof.
  induction s as [|d s IH]; simpl; [discriminate|].
  destruct (Ascii.eqb d c); simpl.
  - intros _. destruct (PyStr.rsplit c s) as [|b rest] eqn:E.
    + now apply rsplit_not_nil in E.
    + now exists EmptyString, b, rest.
  - intros H. destruct (IH H) as [a [b [rest E]]]. rewrite E.
    now exists (String d a), b, rest.
Qed.

(** One step of a run: the result of the first computation decides. *)
Ltac run_step := rewrite snd_bind; cbn [snd lift emit ret raise].
Ltac run_step_in H := rewrite snd_bind in H; cbn [snd lift emit ret raise] in H.

Section ScriptFacts.

Variable Instant : Type.
Variable astimezone : Instant -> DateTime.

Lemma login_or_bad_token_result (ghub : Github Instant) :
  snd (login_or_bad_token ghub)
  = match get_user_login ghub with
    | Ok login => Ok login
    | Raise BadCredentialsException =>
        Raise (ValueError "Bad Github authorization token!")
    | Raise e => Raise e
    end.
Proof.
  unfold login_or_bad_token. run_step.
  destruct (get_user_login ghub) as [login|e]; [reflexivity|].
  destruct e; reflexivity.
Qed.

(** A run that gets as far as the loop ends as the loop does. *)
Lemma main_script_scan (args : Args) (w : World Instant)
    (start_year start_month : Z) (user : string)
    (pulls : list (PullRequest Instant)) :
  reaches_scan args w start_year start_month user pulls ->
  snd (main_script astimezone args w)
  = snd (pr_loop astimezone user start_year start_month pulls
                 initial_counters false).
Proof.
  intros [Hsep [Hy [Hm [login [org_name [repo_name [others [org [repo
            [Hsplit [Hlogin [Huser [Horg [Hrepo Hpulls]]]]]]]]]]]]]].
  unfold main_script, parse_command_line. rewrite Hsep.
  run_step. run_step. rewrite Hy. run_step. rewrite Hm.
  run_step. run_step.
  rewrite login_or_bad_token_result, Hlogin, Hsplit.
  run_step. cbn [list_index nth_error].
  run_step. run_step. rewrite Horg.
  run_step. cbn [list_index nth_error].
  run_step. run_step. rewrite Hrepo.
  run_step. run_step. run_step.
  rewrite Hpulls, <- Huser.
  destruct (snd (pr_loop astimezone user start_year start_month pulls
                         initial_counters false)); [|reflexivity].
  run_step. run_step. run_step. reflexivity.
Qed.

(** A run that ends well got as far as the loop, and the loop ended
    with the counters returned. *)
Lemma main_script_ok_inv (args : Args) (w : World Instant)
    (acc : Accumulator) :
  snd (main_script astimezone args w) = Ok acc ->
  exists start_year start_month user pulls,
    reaches_scan args w start_year start_month user pulls
    /\ snd (pr_loop astimezone user start_year start_month pulls
                    initial_counters false) = Ok acc.
Proof.
  intros Hrun. pose proof Hrun as Hrun'.
  unfold main_script, parse_command_line in Hrun.
  destruct (PyStr.contains "/" (repository args)) eqn:Hsep;
    [|discriminate].
  run_step_in Hrun. run_step_in Hrun.
  destruct (start_year_of args) as [sy|e] eqn:Hy; [|discriminate].
  run_step_in Hrun.
  destruct (start_month_of args) as [sm|e] eqn:Hm; [|discriminate].
  run_step_in Hrun. run_step_in Hrun.
  rewrite login_or_bad_token_result in Hrun.
  destruct (get_user_login (connect w (getpass w))) as [login|e] eqn:Hlogin;
    [|destruct e; discriminate].
  destruct (rsplit_two "/" _ Hsep) as [org_name [repo_name [others Hsplit]]].
  rewrite Hsplit in Hrun.
  run_step_in Hrun. cbn [list_index nth_error] in Hrun.
  run_step_in Hrun. run_step_in Hrun.
  destruct (get_organization (connect w (getpass w)) org_name)
    as [org|e] eqn:Horg; [|discriminate].
  run_step_in Hrun. cbn [list_index nth_error] in Hrun.
  run_step_in Hrun. run_step_in Hrun.
  destruct (get_repo org repo_name) as [repo|e] eqn:Hrepo; [|discriminate].
  clear Hrun.
  assert (Hreach : reaches_scan args w sy sm
            (match given_username args with
             | Some name => name
             | None => login
             end) (get_pulls repo)).
  { repeat (split; [assumption|]).
    exists login, org_name, repo_name, others, org, repo.
    repeat split; assumption. }
  exists sy, sm,
    (match given_username args with Some name => name | None => login end),
    (get_pulls repo).
  split; [exact Hreach|].
  now rewrite <- (main_script_scan _ _ _ _ _ _ Hreach).
Qed.

End ScriptFacts.

(** ** Properties of the script *)

Section ScriptProperties.

Variable Instant : Type.
Variable astimezone : Instant -> DateTime.

(** C6: a run that ends with [num_reviewed_prs] at 0 ends with the
    totals and the maximum at 0 as well; and a run that gets as far as
    the loop and counts no review raises no error: it ends well, with
    all counters at 0. *)
Theorem C6_zero_reviews_zero_totals (args : Args) (w : World Instant) :
  (forall acc,
     snd (main_script astimezone args w) = Ok acc ->
     num_reviewed_prs acc = 0 ->
     num_additions acc = 0 /\ num_deletions acc = 0
     /\ max_pr_additions acc = 0 /\ max_pr_num acc = 0)
  /\ (forall start_year start_month user pulls,
        reaches_scan args w start_year start_month user pulls ->
        Forall has_merge_date pulls ->
        contributions astimezone user start_year start_month pulls = [] ->
        snd (main_script astimezone args w) = Ok initial_counters).
Proof.
  split.
  - intros acc Hrun Hzero.
    destruct (main_script_ok_inv _ _ _ _ _ Hrun)
      as [sy [sm [user [pulls [_ Hscan]]]]].
    apply pr_loop_ok in Hscan. subst acc.
    rewrite count_all_num_reviewed_prs in Hzero. simpl in Hzero.
    destruct (contributions astimezone user sy sm pulls) as [|pr l].
    + now repeat split.
    + simpl List.length in Hzero. lia.
  - intros sy sm user pulls Hreach Hdates Hnone.
    rewrite (main_script_scan _ _ _ _ _ _ _ _ Hreach).
    rewrite pr_loop_total by exact Hdates.
    now rewrite Hnone.
Qed.

(** C7: when the client answers the request for the login with its
    [BadCredentialsException], the handler ends with a [ValueError]
    that says the token is bad, and so does the script, after the prompt
    and that one request; the error raised is not the client's. *)
Theorem C7_bad_credentials_reraised (args : Args) (w : World Instant)
    (start_year start_month : Z) :
  PyStr.contains "/" (repository args) = true ->
  start_year_of args = Ok start_year ->
  start_month_of args = Ok start_month ->
  get_user_login (connect w (getpass w)) = Raise BadCredentialsException ->
  login_or_bad_token (connect w (getpass w))
  = ([ApiGetUser], Raise (ValueError "Bad Github authorization token!"))
  /\ main_script astimezone args w
     = ([Getpass "Auth. Token:"; ApiGetUser],
        Raise (ValueError "Bad Github authorization token!"))
  /\ ValueError "Bad Github authorization token!" <> BadCredentialsException.
Proof.
  intros Hsep Hy Hm Hbad.
  assert (Hhandler : login_or_bad_token (connect w (getpass w))
                     = ([ApiGetUser],
                        Raise (ValueError "Bad Github authorization token!"))).
  { unfold login_or_bad_token. now rewrite Hbad. }
  split; [exact Hhandler|]. split; [|discriminate].
  unfold main_script, parse_command_line.
  rewrite Hsep, bind_lift_ok, Hy, bind_lift_ok, Hm, bind_lift_ok.
  rewrite bind_emit, Hhandler. reflexivity.
Qed.

(** C8, as the code has it: a repository argument without any [/] is
    rejected by the assertion, whose message names the expected form,
    before the prompt and before any request; an argument with one
    separator or more passes the check. *)
Theorem C8_no_separator_rejected (args : Args) (w : World Instant) :
  PyStr.count "/" (repository args) = 0%nat ->
  main_script astimezone args w
  = ([], Raise (AssertionError "repository argument must be '<org>/<repo>'"))
  /\ (forall others : Args,
        PyStr.count "/" (repository others) <> 0%nat ->
        parse_command_line others = Ok others).
Proof.
  intros Hnone. split.
  - apply contains_count in Hnone.
    unfold main_script, parse_command_line. now rewrite Hnone.
  - intros others Hsome. unfold parse_command_line.
    destruct (PyStr.contains "/" (repository others)) eqn:E; [reflexivity|].
    now apply contains_count in E.
Qed.

End ScriptProperties.

(** ** The start date *)

Lemma digit_char_facts (d : Z) :
  is_decimal_digit d ->
  PyStr.is_digit (digit_char d) = true
  /\ PyStr.digit_val (digit_char d) = d
  /\ PyStr.is_space (digit_char d) = false.
Proof.
  unfold is_decimal_digit. intros Hd.
  assert (Hcases : d = 0 \/ d = 1 \/ d = 2 \/ d = 3 \/ d = 4 \/ d = 5
                   \/ d = 6 \/ d = 7 \/ d = 8 \/ d = 9) by lia.
  repeat (destruct Hcases as [->|Hcases]); try subst d;
    repeat split; reflexivity.
Qed.

Lemma rstrip_digits (ds : list Z) :
  Forall is_decimal_digit ds ->
  PyStr.rstrip (digits_string ds) = digits_string ds.
Proof.
  induction 1 as [|d ds Hd _ IH]; simpl; [reflexivity|].
  rewrite IH. destruct (digit_char_facts d Hd) as [_ [_ Hspace]].
  destruct (digits_string ds); [now rewrite Hspace | reflexivity].
Qed.

Lemma int_digits_digits (ds : list Z) (acc : Z) :
  Forall is_decimal_digit ds ->
  PyStr.int_digits acc (digits_string ds)
  = Some (fold_left (fun a d => 10 * a + d) ds acc).
Proof.
  intros Hds. revert acc.
  induction Hds as [|d ds Hd _ IH]; intros acc; simpl; [reflexivity|].
  destruct (digit_char_facts d Hd) as [Hdigit [Hval _]].
  now rewrite Hdigit, Hval, IH.
Qed.

(** [int] reads a string of decimal digits as the number it writes. *)
Lemma int_digits_string (ds : list Z) :
  Forall is_decimal_digit ds -> ds <> [] ->
  PyStr.int (digits_string ds) = Ok (decimal_value ds).
Proof.
  intros Hds Hne. destruct ds as [|d ds]; [contradiction|].
  assert (Htail : Forall is_decimal_digit ds) by now inversion Hds.
  assert (Hd : is_decimal_digit d) by now inversion Hds.
  assert (Hlit : PyStr.int_literal (digits_string (d :: ds))
                 = PyStr.int_unsigned (digits_string (d :: ds))).
  { unfold PyStr.int_literal.
    assert (Hl : PyStr.lstrip (digits_string (d :: ds))
                 = digits_string (d :: ds)).
    { simpl. destruct (digit_char_facts d Hd) as [_ [_ Hspace]].
      now rewrite Hspace. }
    rewrite Hl, (rstrip_digits (d :: ds) Hds). simpl.
    unfold is_decimal_digit in Hd.
    assert (Hcases : d = 0 \/ d = 1 \/ d = 2 \/ d = 3 \/ d = 4 \/ d = 5
                     \/ d = 6 \/ d = 7 \/ d = 8 \/ d = 9) by lia.
    repeat (destruct Hcases as [->|Hcases]); try subst d; reflexivity. }
  unfold PyStr.int. rewrite Hlit. simpl.
  destruct (digit_char_facts d Hd) as [Hdigit [Hval _]].
  rewrite Hdigit, Hval, (int_digits_digits ds d Htail).
  unfold decimal_value. simpl. reflexivity.
Qed.

(** The year of a well-formed start date is read from its first four
    digits. *)
Lemma start_year_of_yyyymm (repo : string) (name : option string)
    (y1 y2 y3 y4 m1 m2 : Z) :
  Forall is_decimal_digit [y1; y2; y3; y4; m1; m2] ->
  start_year_of (mkArgs repo (yyyymm y1 y2 y3 y4 m1 m2) name)
  = Ok (1000 * y1 + 100 * y2 + 10 * y3 + y4).
Proof.
  intros Hds. unfold start_year_of. simpl start_date.
  change (PyStr.slice 0 4 (yyyymm y1 y2 y3 y4 m1 m2))
    with (digits_string [y1; y2; y3; y4]).
  rewrite int_digits_string.
  - unfold decimal_value. cbn [fold_left]. f_equal. lia.
  - repeat (apply Forall_cons_iff in Hds; destruct Hds as [? Hds]).
    repeat (apply Forall_cons; [assumption|]). apply Forall_nil.
  - discriminate.
Qed.

(** The month of a well-formed start date is read from its last digit
    alone. *)
Lemma start_month_of_yyyymm (repo : string) (name : option string)
    (y1 y2 y3 y4 m1 m2 : Z) :
  Forall is_decimal_digit [y1; y2; y3; y4; m1; m2] ->
  start_month_of (mkArgs repo (yyyymm y1 y2 y3 y4 m1 m2) name) = Ok m2.
Proof.
  intros Hds. unfold start_month_of. simpl start_date.
  change (PyStr.slice_from 5 (yyyymm y1 y2 y3 y4 m1 m2))
    with (digits_string [m2]).
  rewrite int_digits_string.
  - reflexivity.
  - repeat (apply Forall_cons_iff in Hds; destruct Hds as [? Hds]).
    repeat (apply Forall_cons; [assumption|]). apply Forall_nil.
  - discriminate.
Qed.

(** C2, on the start date 202312: the year read is 2023, the month read
    is 2, where the last two digits write 12; the scan then takes
    reviews from February 2023 on. *)
Theorem C2_start_month_last_digit_only :
  yyyymm 2 0 2 3 1 2 = "202312"
  /\ start_year_of (mkArgs "ESCOMP/CAM" "202312" None) = Ok 2023
  /\ start_month_of (mkArgs "ESCOMP/CAM" "202312" None) = Ok 2
  /\ decimal_value [1; 2] = 12
  /\ snd (main_script Sample.astimezone (mkArgs "ESCOMP/CAM" "202312" None)
            (Sample.world [Sample.pr10]))
     = Ok (mkAccumulator 1 120 30 120 10).
Proof. repeat split; reflexivity. Qed.

(** ** The totals of a scan *)

(** The counters count the counted reviews: every counted review adds
    the additions and deletions of its pull request. *)
Lemma scan_totals (Instant : Type) (astimezone : Instant -> DateTime)
    (user : string) (start_year start_month : Z)
    (pulls : list (PullRequest Instant)) (acc : Accumulator) :
  snd (pr_loop astimezone user start_year start_month pulls
               initial_counters false) = Ok acc ->
  let counted := contributions astimezone user start_year start_month pulls in
  num_reviewed_prs acc = Z.of_nat (List.length counted)
  /\ num_additions acc = sum_of additions counted
  /\ num_deletions acc = sum_of deletions counted.
Proof.
  intros Hscan counted. apply pr_loop_ok in Hscan. subst acc.
  rewrite count_all_num_reviewed_prs, count_all_num_additions,
    count_all_num_deletions.
  now repeat split.
Qed.

(** C1, on a pull request with two counted reviews by the user: the
    script adds the additions and deletions of PR 7 twice, 200 and 80,
    where the sums over the distinct reviewed pull requests are 100 and
    40. *)
Theorem C1_totals_added_per_counted_review :
  snd (main_script Sample.astimezone Sample.args_2023_06
         (Sample.world [Sample.pr7]))
  = Ok (mkAccumulator 2 200 80 100 7)
  /\ reviewed_prs Sample.astimezone "alice" 2023 6 [Sample.pr7]
     = [Sample.pr7]
  /\ sum_of additions
       (reviewed_prs Sample.astimezone "alice" 2023 6 [Sample.pr7]) = 100
  /\ sum_of deletions
       (reviewed_prs Sample.astimezone "alice" 2023 6 [Sample.pr7]) = 40
  /\ contributions Sample.astimezone "alice" 2023 6 [Sample.pr7]
     = [Sample.pr7; Sample.pr7].
Proof. repeat split; reflexivity. Qed.

(** ** The properties on sample inputs *)

(** An approval by alice in the cutoff month is counted. *)
Lemma C3_witness :
  user_login (Sample.approved "alice" (Sample.ym 2023 6)) = "alice"
  /\ state (Sample.approved "alice" (Sample.ym 2023 6)) <> "COMMENTED"
  /\ review_loop Sample.astimezone "alice" 2023 6 Sample.pr10
       [Sample.approved "alice" (Sample.ym 2023 6)] initial_counters
     = (mkAccumulator 1 120 30 120 10, false).
Proof.
  split; [reflexivity|]. split; [discriminate|].
  destruct (C3_counted_iff_not_before_cutoff Sample.Instant Sample.astimezone
              "alice" 2023 6 Sample.pr10
              (Sample.approved "alice" (Sample.ym 2023 6)) []
              initial_counters) as [Hin _].
  - reflexivity.
  - discriminate.
  - rewrite Hin; [reflexivity|]. right. split; [reflexivity|]. simpl. lia.
Defined.

(** PR 9, merged in May 2023, ends the scan for the cutoff 2023-06. *)
Lemma C4_witness :
  merged Sample.pr9 = true
  /\ merged_at Sample.pr9 = Some (Sample.ym 2023 5)
  /\ ym_lt (Sample.astimezone (Sample.ym 2023 5)) (cutoff 2023 6)
  /\ pr_loop Sample.astimezone "alice" 2023 6
       ([Sample.pr10] ++ Sample.pr9 :: [Sample.pr7]) initial_counters false
     = pr_loop Sample.astimezone "alice" 2023 6 [Sample.pr10]
         initial_counters false.
Proof.
  assert (Hlt : ym_lt (Sample.astimezone (Sample.ym 2023 5)) (cutoff 2023 6)).
  { right. split; [reflexivity|]. simpl. lia. }
  split; [reflexivity|]. split; [reflexivity|]. split; [exact Hlt|].
  apply (C4_merged_before_cutoff_stops_scan Sample.Instant Sample.astimezone
           "alice" 2023 6 [Sample.pr10] Sample.pr9 [Sample.pr7]
           (Sample.ym 2023 5) eq_refl eq_refl Hlt).
Defined.

(** The approval of May 2023 on PR 50 ends the scan for the cutoff
    2023-06. *)
Lemma C5_witness :
  get_reviews Sample.pr50
  = [Sample.approved "alice" (Sample.ym 2023 6)]
    ++ Sample.early_approval :: [Sample.approved "alice" (Sample.ym 2023 7)]
  /\ user_login Sample.early_approval = "alice"
  /\ state Sample.early_approval <> "COMMENTED"
  /\ ym_lt (Sample.astimezone (submitted_at Sample.early_approval))
           (cutoff 2023 6)
  /\ pr_loop Sample.astimezone "alice" 2023 6
       ([Sample.pr10] ++ Sample.pr50 :: [Sample.pr7]) initial_counters false
     = ([PrintOnPR 10; PrintOnPR 50], Ok (mkAccumulator 2 131 34 120 10)).
Proof.
  assert (Hlt : ym_lt (Sample.astimezone (submitted_at Sample.early_approval))
                      (cutoff 2023 6)).
  { right. split; [reflexivity|]. simpl. lia. }
  assert (Hstate : state Sample.early_approval <> "COMMENTED")
    by discriminate.
  split; [reflexivity|]. split; [reflexivity|]. split; [exact Hstate|].
  split; [exact Hlt|].
  destruct (C5_review_before_cutoff_ends_both_loops Sample.Instant
              Sample.astimezone "alice" 2023 6 [Sample.pr10] Sample.pr50
              [Sample.approved "alice" (Sample.ym 2023 6)]
              Sample.early_approval
              [Sample.approved "alice" (Sample.ym 2023 7)] [Sample.pr7]
              eq_refl eq_refl Hstate Hlt) as [_ [_ Hcut]].
  rewrite Hcut. reflexivity.
Defined.

(** The old comment on PR 40 does not end the scan. *)
Lemma C10_witness :
  get_reviews Sample.pr40
  = [] ++ Sample.old_comment
       :: [Sample.approved "bob" (Sample.ym 2018 3);
           Sample.approved "alice" (Sample.ym 2023 6)]
  /\ (user_login Sample.old_comment <> "alice"
      \/ state Sample.old_comment = "COMMENTED")
  /\ pr_loop Sample.astimezone "alice" 2023 6
       ([] ++ Sample.pr40 :: [Sample.pr10]) initial_counters false
     = ([PrintOnPR 40; PrintOnPR 10], Ok (mkAccumulator 2 128 39 120 10)).
Proof.
  assert (Hother : user_login Sample.old_comment <> "alice"
                   \/ state Sample.old_comment = "COMMENTED")
    by (right; reflexivity).
  split; [reflexivity|]. split; [exact Hother|].
  destruct (C10_other_reviews_never_stop_scan Sample.Instant
              Sample.astimezone "alice" 2023 6 [] Sample.pr40 []
              Sample.old_comment
              [Sample.approved "bob" (Sample.ym 2018 3);
               Sample.approved "alice" (Sample.ym 2023 6)] [Sample.pr10]
              eq_refl Hother) as [_ [Hsame _]].
  rewrite Hsame. reflexivity.
Defined.

(** PR 32 and PR 31 both have 50 additions: the maximum is PR 32's. *)
Lemma C9_witness :
  snd (pr_loop Sample.astimezone "alice" 2023 6
         [Sample.pr32; Sample.pr31; Sample.pr30] initial_counters false)
  = Ok (mkAccumulator 3 120 6 50 32)
  /\ exists pr,
       first_with_additions 50
         (contributions Sample.astimezone "alice" 2023 6
            [Sample.pr32; Sample.pr31; Sample.pr30]) = Some pr
       /\ max_pr_num (mkAccumulator 3 120 6 50 32) = number pr
       /\ max_pr_additions (mkAccumulator 3 120 6 50 32) = 50.
Proof.
  split; [reflexivity|].
  apply (proj1 (C9_max_pr_num_first_positive_maximum Sample.Instant
                  Sample.astimezone "alice" 2023 6
                  [Sample.pr32; Sample.pr31; Sample.pr30]
                  (mkAccumulator 3 120 6 50 32) eq_refl) 50).
  - split.
    + exists Sample.pr32. split; [left; reflexivity | reflexivity].
    + intros pr [<-|[<-|[<-|[]]]]; simpl; lia.
  - lia.
Defined.

(** C9 fails when the counted pull requests have no additions: PR 21 and
    PR 20 tie for the largest number of additions, 0, PR 21 is the first
    of them, and [max_pr_num] is 0, not 21.  So it is not true of every
    scan that, on a tie for the largest number of additions,
    [max_pr_num] is the number of the first pull request with it. *)
Lemma C9_counterexample :
  snd (pr_loop Sample.astimezone "alice" 2023 6 [Sample.pr21; Sample.pr20]
         initial_counters false)
  = Ok (mkAccumulator 2 0 15 0 0)
  /\ contributions Sample.astimezone "alice" 2023 6 [Sample.pr21; Sample.pr20]
     = [Sample.pr21; Sample.pr20]
  /\ is_max_additions [Sample.pr21; Sample.pr20] 0
  /\ first_with_additions 0 [Sample.pr21; Sample.pr20] = Some Sample.pr21
  /\ max_pr_num (mkAccumulator 2 0 15 0 0) <> number Sample.pr21
  /\ ~ (forall (pulls : list (PullRequest Sample.Instant))
               (acc : Accumulator) (m : Z),
          snd (pr_loop Sample.astimezone "alice" 2023 6 pulls
                 initial_counters false) = Ok acc ->
          is_max_additions
            (contributions Sample.astimezone "alice" 2023 6 pulls) m ->
          2 <= Z.of_nat
                 (List.length
                    (filter (fun pr => additions pr =? m)
                       (contributions Sample.astimezone "alice" 2023 6
                          pulls))) ->
          exists pr,
            first_with_additions m
              (contributions Sample.astimezone "alice" 2023 6 pulls) = Some pr
            /\ max_pr_num acc = number pr).
Proof.
  assert (Hmax : is_max_additions [Sample.pr21; Sample.pr20] 0).
  { split.
    - exists Sample.pr21. split; [left; reflexivity | reflexivity].
    - intros pr [<-|[<-|[]]]; simpl; lia. }
  split; [reflexivity|]. split; [reflexivity|]. split; [exact Hmax|].
  split; [reflexivity|]. split; [discriminate|].
  intros Hclaim.
  destruct (Hclaim [Sample.pr21; Sample.pr20] (mkAccumulator 2 0 15 0 0) 0
              eq_refl Hmax (Z.le_refl 2)) as [pr [Hfirst Hnum]].
  injection Hfirst as <-. discriminate Hnum.
Qed.

(** A run without counted review ends well with all counters at 0. *)
Lemma C6_witness :
  snd (main_script Sample.astimezone Sample.args_2023_06
         (Sample.world [Sample.pr60; Sample.pr9]))
  = Ok initial_counters
  /\ (num_additions initial_counters = 0
      /\ num_deletions initial_counters = 0
      /\ max_pr_additions initial_counters = 0
      /\ max_pr_num initial_counters = 0).
Proof.
  assert (Hrun :
    snd (main_script Sample.astimezone Sample.args_2023_06
           (Sample.world [Sample.pr60; Sample.pr9]))
    = Ok initial_counters).
  { apply (proj2 (C6_zero_reviews_zero_totals Sample.Instant
                    Sample.astimezone Sample.args_2023_06
                    (Sample.world [Sample.pr60; Sample.pr9]))
             2023 6 "alice" [Sample.pr60; Sample.pr9]).
    - split; [reflexivity|]. split; [reflexivity|]. split; [reflexivity|].
      exists "alice", "ESCOMP", "CAM", [],
        (mkOrganization
           (fun _ => Ok (mkRepository [Sample.pr60; Sample.pr9]))),
        (mkRepository [Sample.pr60; Sample.pr9]).
      repeat split; reflexivity.
    - repeat (apply Forall_cons; [discriminate|]). apply Forall_nil.
    - reflexivity. }
  split; [exact Hrun|].
  apply (proj1 (C6_zero_reviews_zero_totals Sample.Instant
                  Sample.astimezone Sample.args_2023_06
                  (Sample.world [Sample.pr60; Sample.pr9]))
           initial_counters Hrun eq_refl).
Defined.

(** A refused token ends the run with the error of the script. *)
Lemma C7_witness :
  PyStr.contains "/" (repository Sample.args_2023_06) = true
  /\ start_year_of Sample.args_2023_06 = Ok 2023
  /\ start_month_of Sample.args_2023_06 = Ok 6
  /\ get_user_login (connect Sample.world_bad_token
                       (getpass Sample.world_bad_token))
     = Raise BadCredentialsException
  /\ main_script Sample.astimezone Sample.args_2023_06 Sample.world_bad_token
     = ([Getpass "Auth. Token:"; ApiGetUser],
        Raise (ValueError "Bad Github authorization token!")).
Proof.
  repeat (split; [reflexivity|]).
  apply (C7_bad_credentials_reraised Sample.Instant Sample.astimezone
           Sample.args_2023_06 Sample.world_bad_token 2023 6
           eq_refl eq_refl eq_refl eq_refl).
Defined.

(** A repository argument without separator is rejected at once. *)
Lemma C8_witness :
  PyStr.count "/" (repository (mkArgs "ESCOMPCAM" "202306" None)) = 0%nat
  /\ main_script Sample.astimezone (mkArgs "ESCOMPCAM" "202306" None)
       (Sample.world [Sample.pr10])
     = ([], Raise (AssertionError
                     "repository argument must be '<org>/<repo>'")).
Proof.
  split; [reflexivity|].
  apply (C8_no_separator_rejected Sample.Instant Sample.astimezone
           (mkArgs "ESCOMPCAM" "202306" None) (Sample.world [Sample.pr10])
           eq_refl).
Defined.

(** C8 fails on a repository argument with two separators: the check
    passes, the token is asked for and the client is used, with the first
    two parts as organization and repository.  So it is not true that
    every argument without exactly one separator ends the run with an
    error before the prompt and the requests. *)
Lemma C8_counterexample :
  PyStr.count "/" (repository (mkArgs "ESCOMP/CAM/extra" "202306" None))
  = 2%nat
  /\ parse_command_line (mkArgs "ESCOMP/CAM/extra" "202306" None)
     = Ok (mkArgs "ESCOMP/CAM/extra" "202306" None)
  /\ main_script Sample.astimezone (mkArgs "ESCOMP/CAM/extra" "202306" None)
       (Sample.world [])
     = ([Getpass "Auth. Token:"; ApiGetUser; ApiGetOrganization "ESCOMP";
         ApiGetRepo "CAM"; ApiGetPulls;
         PrintLine "Looping over PRs for ESCOMP/CAM...";
         PrintLine "...Finished ESCOMP/CAM PR loop."; ApiClose;
         PrintSummary initial_counters],
        Ok initial_counters)
  /\ ~ (forall (args : Args) (w : World Sample.Instant),
          PyStr.count "/" (repository args) <> 1%nat ->
          exists e, main_script Sample.astimezone args w = ([], Raise e)).
Proof.
  split; [reflexivity|]. split; [reflexivity|]. split; [reflexivity|].
  intros Hclaim.
  destruct (Hclaim (mkArgs "ESCOMP/CAM/extra" "202306" None)
              (Sample.world [])) as [e He]; [discriminate|].
  discriminate He.
Qed.

(** * Further properties *)

Example format_samples :
  PyFmt.format_thousands 0 = "0" /\ PyFmt.format_thousands 999 = "999" /\
  PyFmt.format_thousands 1000 = "1,000" /\
  PyFmt.format_thousands 1234567 = "1,234,567" /\
  PyFmt.format_thousands (-1234) = "-1,234" /\
  PyFmt.str 120 = "120" /\ PyFmt.str (-7) = "-7" /\
  PyFmt.join "/" ["a"; ""; "b"] = "a//b".
Proof. repeat split; reflexivity. Qed.

(** ** More on the scan *)

Section ScanSums.

Variable Instant : Type.

Local Notation "'PR'" := (PullRequest Instant).

Lemma sum_of_app (f : PR -> Z) (l1 l2 : list PR) :
  sum_of f (l1 ++ l2) = sum_of f l1 + sum_of f l2.
Proof.
  induction l1 as [|pr l1 IH]; simpl; [reflexivity|]. rewrite IH. lia.
Qed.

Lemma sum_of_same {A : Type} (f : PR -> Z) (pr : PR) (l : list A) :
  sum_of f (map (fun _ => pr) l) = Z.of_nat (List.length l) * f pr.
Proof.
  induction l as [|a l IH]; [reflexivity|].
  simpl map. simpl sum_of. simpl List.length. rewrite IH. lia.
Qed.

Lemma sum_of_copies {A : Type} (f : PR -> Z) (copies : PR -> list A)
    (l : list PR) :
  sum_of f (flat_map (fun pr => map (fun _ => pr) (copies pr)) l)
  = sum_of (fun pr => Z.of_nat (List.length (copies pr)) * f pr) l.
Proof.
  induction l as [|pr l IH]; [reflexivity|].
  simpl flat_map. rewrite sum_of_app, sum_of_same, IH. reflexivity.
Qed.

Lemma sum_of_ones (l : list PR) :
  sum_of (fun _ => 1) l = Z.of_nat (List.length l).
Proof.
  induction l as [|pr l IH]; [reflexivity|].
  unfold sum_of in *. cbn [fold_right List.length]. rewrite IH. lia.
Qed.

Lemma sum_of_nonneg (f : PR -> Z) (l : list PR) :
  (forall pr, In pr l -> 0 <= f pr) -> 0 <= sum_of f l.
Proof.
  induction l as [|pr l IH]; intros Hf; simpl; [lia|].
  assert (0 <= f pr) by (apply Hf; now left).
  assert (0 <= sum_of f l) by (apply IH; intros q Hq; apply Hf; now right).
  lia.
Qed.

(** The maximum after counting: it does not fall, it bounds the
    additions of what was counted, and it is the initial one or the
    additions of a counted pull request, whose number is kept with it. *)
Lemma count_all_max_invariant (l : list PR) (acc : Accumulator) :
  max_pr_additions acc <= max_pr_additions (count_all l acc)
  /\ (forall pr, In pr l -> additions pr <= max_pr_additions (count_all l acc))
  /\ ((max_pr_additions (count_all l acc) = max_pr_additions acc
       /\ max_pr_num (count_all l acc) = max_pr_num acc)
      \/ exists pr, In pr l
           /\ additions pr = max_pr_additions (count_all l acc)
           /\ number pr = max_pr_num (count_all l acc)).
Proof.
  revert acc. induction l as [|pr l IH]; intros acc.
  - simpl. split; [lia|]. split; [intros pr []|]. now left.
  - change (count_all (pr :: l) acc) with (count_all l (count_review pr acc)).
    destruct (IH (count_review pr acc)) as [Hge [Hall Hwhich]].
    assert (Hstep :
      (additions pr <= max_pr_additions acc
       /\ max_pr_additions (count_review pr acc) = max_pr_additions acc
       /\ max_pr_num (count_review pr acc) = max_pr_num acc)
      \/ (max_pr_additions acc < additions pr
          /\ max_pr_additions (count_review pr acc) = additions pr
          /\ max_pr_num (count_review pr acc) = number pr)).
    { simpl. destruct (Z.gtb_spec (additions pr) (max_pr_additions acc));
        [right | left]; repeat split; lia. }
    split; [|split].
    + destruct Hstep as [[_ [E _]]|[Hlt [E _]]]; lia.
    + intros q [<-|Hq]; [|now apply Hall].
      destruct Hstep as [[Hle [E _]]|[_ [E _]]]; lia.
    + destruct Hwhich as [[Ea En]|[q [Hq [Ea En]]]].
      * destruct Hstep as [[_ [E1 E2]]|[_ [E1 E2]]].
        -- left. split; congruence.
        -- right. exists pr. split; [now left|]. split; congruence.
      * right. exists q. split; [now right|]. now split.
Qed.

Lemma count_all_sums_grow (l : list PR) (acc : Accumulator) :
  (forall pr, In pr l -> 0 <= additions pr /\ 0 <= deletions pr) ->
  num_reviewed_prs acc <= num_reviewed_prs (count_all l acc)
  /\ num_additions acc <= num_additions (count_all l acc)
  /\ num_deletions acc <= num_deletions (count_all l acc).
Proof.
  intros Hpos.
  rewrite count_all_num_reviewed_prs, count_all_num_additions,
    count_all_num_deletions.
  assert (0 <= sum_of additions l)
    by (apply sum_of_nonneg; intros pr Hpr; now apply Hpos).
  assert (0 <= sum_of deletions l)
    by (apply sum_of_nonneg; intros pr Hpr; now apply Hpos).
  lia.
Qed.

End ScanSums.

Section ScanShape.

Variable Instant : Type.
Variable astimezone : Instant -> DateTime.
Variable user : string.
Variable start_year start_month : Z.

Local Notation "'PR'" := (PullRequest Instant).
Local Notation "'reviews_loop'" :=
  (review_loop astimezone user start_year start_month).
Local Notation "'pulls_loop'" :=
  (pr_loop astimezone user start_year start_month).
Local Notation "'ends'" := (ends_scan astimezone user start_year start_month).
Local Notation "'counted'" :=
  (counted_reviews astimezone user start_year start_month).
Local Notation "'closes'" := (closes_scan astimezone start_year start_month).
Local Notation "'seen'" := (scanned astimezone user start_year start_month).
Local Notation "'contrib'" :=
  (contributions astimezone user start_year start_month).

Lemma scanned_prefix (pulls : list PR) :
  exists rest, pulls = seen pulls ++ rest.
Proof.
  induction pulls as [|pr pulls [rest IH]]; simpl.
  - now exists [].
  - destruct (closes pr); [now exists (pr :: pulls)|].
    destruct (existsb ends (get_reviews pr)).
    + now exists pulls.
    + exists rest. simpl. now rewrite <- IH.
Qed.

Lemma scanned_incl (pulls : list PR) (pr : PR) :
  In pr (seen pulls) -> In pr pulls.
Proof.
  destruct (scanned_prefix pulls) as [rest E]. intros Hin.
  rewrite E. apply in_or_app. now left.
Qed.

Lemma contributions_scanned (pulls : list PR) (pr : PR) :
  In pr (contrib pulls) -> In pr (seen pulls).
Proof.
  unfold contributions. rewrite in_flat_map.
  intros [q [Hq Hin]]. apply in_map_iff in Hin.
  destruct Hin as [r [E _]]. now subst q.
Qed.

Lemma contributions_incl (pulls : list PR) (pr : PR) :
  In pr (contrib pulls) -> In pr pulls.
Proof. intros H. now apply scanned_incl, contributions_scanned. Qed.

(** The counted reviews are among the reviews by the user that are not
    comments. *)
Lemma counted_reviews_length (reviews : list (Review Instant)) :
  (List.length (counted reviews)
   <= List.length (filter (is_user_review user) reviews))%nat.
Proof.
  induction reviews as [|r rest IH]; simpl; [lia|].
  unfold ends_scan. destruct (is_user_review user r); simpl.
  - destruct (submitted_in_range astimezone start_year start_month r);
      simpl; lia.
  - exact IH.
Qed.

(** What a longer input adds to the counted pull requests. *)
Lemma contributions_app (pulls more : list PR) :
  exists tail,
    contrib (pulls ++ more) = contrib pulls ++ tail
    /\ forall pr, In pr tail -> In pr more.
Proof.
  induction pulls as [|pr pulls [tail [E Hin]]].
  - exists (contrib more). split; [reflexivity|].
    intros pr. apply contributions_incl.
  - rewrite <- app_comm_cons, !contributions_cons.
    destruct (closes pr).
    + exists []. split; [reflexivity | intros q []].
    + destruct (existsb ends (get_reviews pr)).
      * exists []. split; [now rewrite !app_nil_r | intros q []].
      * exists tail. split; [|exact Hin]. now rewrite E, app_assoc.
Qed.

End ScanShape.

Section ScanHelpers.

Variable Instant : Type.
Variable astimezone : Instant -> DateTime.
Variable user : string.
Variable start_year start_month : Z.

Local Notation "'PR'" := (PullRequest Instant).
Local Notation "'reviews_loop'" :=
  (review_loop astimezone user start_year start_month).
Local Notation "'pulls_loop'" :=
  (pr_loop astimezone user start_year start_month).
Local Notation "'counted'" :=
  (counted_reviews astimezone user start_year start_month).

Lemma sum_of_ext (f g : PR -> Z) (l : list PR) :
  (forall pr, f pr = g pr) -> sum_of f l = sum_of g l.
Proof.
  intros Hfg. induction l as [|pr l IH]; simpl; [reflexivity|].
  now rewrite Hfg, IH.
Qed.

Lemma sum_of_member (f : PR -> Z) (l : list PR) (pr : PR) :
  (forall q, In q l -> 0 <= f q) -> In pr l -> f pr <= sum_of f l.
Proof.
  induction l as [|q l IH]; intros Hpos Hin; [destruct Hin|].
  simpl sum_of.
  assert (0 <= f q) by (apply Hpos; now left).
  assert (0 <= sum_of f l)
    by (apply sum_of_nonneg; intros x Hx; apply Hpos; now right).
  destruct Hin as [<-|Hin]; [lia|].
  assert (f pr <= sum_of f l)
    by (apply IH; [intros x Hx; apply Hpos; now right | exact Hin]).
  lia.
Qed.

(** Reviews that are all by others or comments: none is counted. *)
Lemma counted_reviews_none (reviews : list (Review Instant)) :
  (forall r, In r reviews ->
             user_login r <> user \/ state r = "COMMENTED") ->
  counted reviews = [].
Proof.
  induction reviews as [|r rest IH]; intros Hnone; simpl; [reflexivity|].
  assert (Hskip : is_user_review user r = false).
  { apply is_user_review_false, Hnone. now left. }
  unfold ends_scan. rewrite Hskip. simpl.
  apply IH. intros q Hq. apply Hnone. now right.
Qed.

(** The review loop reads of the pull request what it adds up, not the
    merge. *)
Lemma review_loop_unmerged (pr : PR) (reviews : list (Review Instant))
    (acc : Accumulator) :
  reviews_loop (unmerged pr) reviews acc = reviews_loop pr reviews acc.
Proof.
  revert acc. induction reviews as [|r rest IH]; intros acc; simpl.
  - reflexivity.
  - destruct (is_user_review user r);
      [destruct (submitted_in_range astimezone start_year start_month r)|];
      try reflexivity.
    + rewrite IH. reflexivity.
    + apply IH.
Qed.

(** Two lists of pull requests that end alike can be exchanged at the
    end of a scan, as far as its result goes. *)
Lemma pr_loop_app_congr_result (pre tail1 tail2 : list PR) :
  (forall acc,
     snd (pulls_loop tail1 acc false) = snd (pulls_loop tail2 acc false)) ->
  forall acc stop_loop,
    snd (pulls_loop (pre ++ tail1) acc stop_loop)
    = snd (pulls_loop (pre ++ tail2) acc stop_loop).
Proof.
  intros Htail. induction pre as [|pr pre IH]; intros acc stop_loop.
  - destruct stop_loop; [now rewrite !pr_loop_stopped | apply Htail].
  - destruct stop_loop; [now rewrite !pr_loop_stopped|].
    rewrite <- !app_comm_cons, !pr_loop_cons. cbv zeta.
    destruct (merged pr).
    + destruct (merged_at pr) as [t|]; [|reflexivity].
      destruct (merged_before_start astimezone start_year start_month t);
        [reflexivity|]. simpl. apply IH.
    + simpl. apply IH.
Qed.

(** With at most one counted review each, the counted pull requests are
    the reviewed ones. *)
Lemma copies_once {A : Type} (copies : PR -> list A) (l : list PR) :
  (forall pr, In pr l -> (List.length (copies pr) <= 1)%nat) ->
  flat_map (fun pr => map (fun _ => pr) (copies pr)) l
  = filter (fun pr => match copies pr with
                      | [] => false
                      | _ :: _ => true
                      end) l.
Proof.
  induction l as [|pr l IH]; intros Hone; [reflexivity|].
  simpl. rewrite IH by (intros q Hq; apply Hone; now right).
  assert (Hpr := Hone pr (or_introl eq_refl)).
  destruct (copies pr) as [|a [|b rest]]; simpl in *; [reflexivity..|lia].
Qed.

End ScanHelpers.

Section ScanExtras.

Variable Instant : Type.
Variable astimezone : Instant -> DateTime.
Variable user : string.
Variable start_year start_month : Z.

Local Notation "'PR'" := (PullRequest Instant).
Local Notation "'reviews_loop'" :=
  (review_loop astimezone user start_year start_month).
Local Notation "'pulls_loop'" :=
  (pr_loop astimezone user start_year start_month).
Local Notation "'counted'" :=
  (counted_reviews astimezone user start_year start_month).
Local Notation "'seen'" := (scanned astimezone user start_year start_month).
Local Notation "'contrib'" :=
  (contributions astimezone user start_year start_month).
Local Notation "'the_cutoff'" := (cutoff start_year start_month).

(** X1: after a scan that ends well, every scanned pull request weighs
    in the counters as many times as it has counted reviews:
    [num_reviewed_prs] is the number of counted reviews, and
    [num_additions] and [num_deletions] add the additions and deletions
    of a pull request once per counted review of it. *)
Theorem X1_counters_weigh_pulls_by_counted_reviews
    (pulls : list PR) (acc : Accumulator) :
  snd (pulls_loop pulls initial_counters false) = Ok acc ->
  let times := fun pr => Z.of_nat (List.length (counted (get_reviews pr))) in
  num_reviewed_prs acc = sum_of times (seen pulls)
  /\ num_additions acc
     = sum_of (fun pr => times pr * additions pr) (seen pulls)
  /\ num_deletions acc
     = sum_of (fun pr => times pr * deletions pr) (seen pulls).
Proof.
  intros Hscan times. apply pr_loop_ok in Hscan. subst acc.
  rewrite count_all_num_reviewed_prs, count_all_num_additions,
    count_all_num_deletions.
  unfold contributions. rewrite <- sum_of_ones, !sum_of_copies.
  simpl. repeat split.
  apply sum_of_ext. intros pr. unfold times. lia.
Qed.

(** X2: after a scan that ends well, [max_pr_additions] is not negative
    and no counted pull request has more additions; it is 0 with
    [max_pr_num] 0, or it is the additions of a counted pull request
    whose number is [max_pr_num]. *)
Theorem X2_maximum_bounds_counted_pulls
    (pulls : list PR) (acc : Accumulator) :
  snd (pulls_loop pulls initial_counters false) = Ok acc ->
  0 <= max_pr_additions acc
  /\ (forall pr, In pr (contrib pulls) ->
                 additions pr <= max_pr_additions acc)
  /\ ((max_pr_additions acc = 0 /\ max_pr_num acc = 0)
      \/ exists pr, In pr (contrib pulls)
           /\ In pr pulls
           /\ additions pr = max_pr_additions acc
           /\ number pr = max_pr_num acc).
Proof.
  intros Hscan. apply pr_loop_ok in Hscan. subst acc.
  destruct (count_all_max_invariant Instant (contrib pulls) initial_counters)
    as [Hge [Hall Hwhich]].
  split; [exact Hge|]. split; [exact Hall|].
  destruct Hwhich as [Hinit|[pr [Hin [Ea En]]]]; [now left|].
  right. exists pr. repeat split; try assumption.
  now apply contributions_incl in Hin.
Qed.

(** X3: the progress lines of a scan give, in order and without gap,
    the numbers of the first pull requests of the input. *)
Theorem X3_progress_lines_follow_input (pulls : list PR) (acc : Accumulator) :
  exists shown rest,
    pulls = shown ++ rest
    /\ fst (pulls_loop pulls acc false) = map PrintOnPR (map number shown).
Proof.
  destruct (scanned_prefix Instant astimezone user start_year start_month
              pulls) as [rest E].
  exists (seen pulls), rest. split; [exact E | apply pr_loop_events].
Qed.

(** X4: when no pull request has negative additions or deletions, a
    scan that ends well leaves no counter negative, and the maximum is at
    most the total of the additions. *)
Theorem X4_counters_not_negative (pulls : list PR) (acc : Accumulator) :
  (forall pr, In pr pulls -> 0 <= additions pr /\ 0 <= deletions pr) ->
  snd (pulls_loop pulls initial_counters false) = Ok acc ->
  0 <= num_reviewed_prs acc
  /\ 0 <= num_additions acc
  /\ 0 <= num_deletions acc
  /\ 0 <= max_pr_additions acc <= num_additions acc.
Proof.
  intros Hpos Hscan. apply pr_loop_ok in Hscan. subst acc.
  assert (Hcontrib : forall pr, In pr (contrib pulls) ->
                                0 <= additions pr /\ 0 <= deletions pr).
  { intros pr Hin. apply Hpos. now apply contributions_incl in Hin. }
  destruct (count_all_sums_grow Instant (contrib pulls) initial_counters
              Hcontrib) as [Hn [Ha Hd]].
  destruct (count_all_max_invariant Instant (contrib pulls) initial_counters)
    as [Hge [_ Hwhich]].
  simpl in Hn, Ha, Hd, Hge.
  repeat split; try assumption.
  destruct Hwhich as [[E _]|[pr [Hin [E _]]]].
  - rewrite E. exact Ha.
  - rewrite <- E, count_all_num_additions. simpl.
    apply sum_of_member; [|exact Hin].
    intros q Hq. now apply Hcontrib.
Qed.

(** X5: pull requests added at the end of the input, with additions and
    deletions that are not negative, lower no counter. *)
Theorem X5_longer_input_lowers_no_counter
    (pulls more : list PR) (acc acc' : Accumulator) :
  (forall pr, In pr more -> 0 <= additions pr /\ 0 <= deletions pr) ->
  snd (pulls_loop pulls initial_counters false) = Ok acc ->
  snd (pulls_loop (pulls ++ more) initial_counters false) = Ok acc' ->
  num_reviewed_prs acc <= num_reviewed_prs acc'
  /\ num_additions acc <= num_additions acc'
  /\ num_deletions acc <= num_deletions acc'
  /\ max_pr_additions acc <= max_pr_additions acc'.
Proof.
  intros Hpos Hscan Hscan'.
  apply pr_loop_ok in Hscan. apply pr_loop_ok in Hscan'. subst acc acc'.
  destruct (contributions_app Instant astimezone user start_year start_month
              pulls more) as [tail [E Htail]].
  rewrite E, count_all_app.
  destruct (count_all_sums_grow Instant tail
              (count_all (contrib pulls) initial_counters))
    as [Hn [Ha Hd]].
  { intros pr Hin. apply Hpos. now apply Htail. }
  destruct (count_all_max_invariant Instant tail
              (count_all (contrib pulls) initial_counters)) as [Hge _].
  now repeat split.
Qed.

(** X6: when no pull request has more than one review by the user that
    is not a comment, a scan that ends well counts every reviewed pull
    request once: the counters are the number of the pull requests with a
    counted review and the sums of their additions and deletions. *)
Theorem X6_single_reviews_count_once_per_pull
    (pulls : list PR) (acc : Accumulator) :
  (forall pr, In pr pulls ->
     (List.length (filter (is_user_review user) (get_reviews pr)) <= 1)%nat) ->
  snd (pulls_loop pulls initial_counters false) = Ok acc ->
  let reviewed := reviewed_prs astimezone user start_year start_month pulls in
  num_reviewed_prs acc = Z.of_nat (List.length reviewed)
  /\ num_additions acc = sum_of additions reviewed
  /\ num_deletions acc = sum_of deletions reviewed.
Proof.
  intros Hone Hscan reviewed. apply pr_loop_ok in Hscan. subst acc.
  assert (E : contrib pulls = reviewed).
  { unfold contributions, reviewed, reviewed_prs. apply copies_once.
    intros pr Hin. apply scanned_incl in Hin.
    pose proof (counted_reviews_length Instant astimezone user start_year
                  start_month (get_reviews pr)).
    specialize (Hone pr Hin). lia. }
  rewrite E, count_all_num_reviewed_prs, count_all_num_additions,
    count_all_num_deletions.
  now repeat split.
Qed.

(** X7: a pull request that is not merged and has no review changes
    nothing in the result of the scan. *)
Theorem X7_pull_without_reviews_changes_nothing
    (pre : list PR) (pr : PR) (post : list PR) :
  merged pr = false ->
  get_reviews pr = [] ->
  snd (pulls_loop (pre ++ pr :: post) initial_counters false)
  = snd (pulls_loop (pre ++ post) initial_counters false).
Proof.
  intros Hopen Hnone. apply pr_loop_app_congr_result. intros acc.
  rewrite pr_loop_cons, Hopen, Hnone. reflexivity.
Qed.

(** X8: a merged pull request whose merge date is not before the cutoff
    is scanned as if it were not merged. *)
Theorem X8_merge_in_window_scanned_as_unmerged
    (pre : list PR) (pr : PR) (post : list PR) (t : Instant) :
  merged pr = true ->
  merged_at pr = Some t ->
  ym_le the_cutoff (astimezone t) ->
  pulls_loop (pre ++ pr :: post) initial_counters false
  = pulls_loop (pre ++ unmerged pr :: post) initial_counters false.
Proof.
  intros Hmerged Hat Hle. apply pr_loop_app_congr. intros acc.
  assert (Hnot : merged_before_start astimezone start_year start_month t
                 = false).
  { destruct (merged_before_start astimezone start_year start_month t)
      eqn:E; [|reflexivity].
    apply merged_before_start_iff in E. apply ym_lt_not_le in E.
    contradiction. }
  rewrite !pr_loop_cons, Hmerged, Hat, Hnot. cbv zeta. simpl.
  rewrite review_loop_unmerged. reflexivity.
Qed.

(** X9: when every review of every pull request is by somebody else or
    a comment, a scan that ends well leaves all counters at 0. *)
Theorem X9_no_review_by_user_leaves_zero
    (pulls : list PR) (acc : Accumulator) :
  (forall pr r, In pr pulls -> In r (get_reviews pr) ->
                user_login r <> user \/ state r = "COMMENTED") ->
  snd (pulls_loop pulls initial_counters false) = Ok acc ->
  acc = initial_counters.
Proof.
  intros Hnone Hscan. apply pr_loop_ok in Hscan. subst acc.
  assert (E : contrib pulls = []).
  { unfold contributions.
    assert (Hall : forall l, (forall pr, In pr l -> In pr pulls) ->
              flat_map (fun pr => map (fun _ => pr)
                                      (counted (get_reviews pr))) l = []).
    { induction l as [|pr l IH]; intros Hl; [reflexivity|].
      simpl. rewrite (counted_reviews_none Instant astimezone user
                        start_year start_month (get_reviews pr)).
      - simpl. apply IH. intros q Hq. apply Hl. now right.
      - intros r Hr. apply (Hnone pr r); [apply Hl; now left | exact Hr]. }
    apply Hall. intros pr. apply scanned_incl. }
  now rewrite E.
Qed.

End ScanExtras.

(** ** More on the script *)

Section ScriptStages.

Variable Instant : Type.
Variable astimezone : Instant -> DateTime.

(** The run of the script, stage by stage, once the arguments are
    accepted. *)
Lemma main_script_stages (args : Args) (w : World Instant)
    (start_year start_month : Z) (org_name repo_name : string)
    (others : list string) :
  PyStr.contains "/" (repository args) = true ->
  start_year_of args = Ok start_year ->
  start_month_of args = Ok start_month ->
  PyStr.rsplit "/" (repository args) = org_name :: repo_name :: others ->
  main_script astimezone args w
  = match get_user_login (connect w (getpass w)) with
    | Raise BadCredentialsException =>
        ([Getpass "Auth. Token:"; ApiGetUser],
         Raise (ValueError "Bad Github authorization token!"))
    | Raise e => ([Getpass "Auth. Token:"; ApiGetUser], Raise e)
    | Ok login =>
        match get_organization (connect w (getpass w)) org_name with
        | Raise e =>
            ([Getpass "Auth. Token:"; ApiGetUser;
              ApiGetOrganization org_name], Raise e)
        | Ok org =>
            match get_repo org repo_name with
            | Raise e =>
                ([Getpass "Auth. Token:"; ApiGetUser;
                  ApiGetOrganization org_name; ApiGetRepo repo_name],
                 Raise e)
            | Ok repo =>
                let scan :=
                  pr_loop astimezone
                    match given_username args with
                    | Some name => name
                    | None => login
                    end start_year start_month (get_pulls repo)
                    initial_counters false in
                match snd scan with
                | Ok acc =>
                    (Getpass "Auth. Token:" :: ApiGetUser
                     :: ApiGetOrganization org_name :: ApiGetRepo repo_name
                     :: ApiGetPulls
                     :: PrintLine "Looping over PRs for ESCOMP/CAM..."
                     :: fst scan
                        ++ [PrintLine "...Finished ESCOMP/CAM PR loop.";
                            ApiClose; PrintSummary acc],
                     Ok acc)
                | Raise e =>
                    (Getpass "Auth. Token:" :: ApiGetUser
                     :: ApiGetOrganization org_name :: ApiGetRepo repo_name
                     :: ApiGetPulls
                     :: PrintLine "Looping over PRs for ESCOMP/CAM..."
                     :: fst scan,
                     Raise e)
                end
            end
        end
    end.
Proof.
  intros Hsep Hy Hm Hsplit.
  unfold main_script, parse_command_line, login_or_bad_token. cbv zeta.
  rewrite Hsep, bind_lift_ok, Hy, bind_lift_ok, Hm, bind_lift_ok, Hsplit.
  destruct (get_user_login (connect w (getpass w))) as [login|e].
  2:{ destruct e; reflexivity. }
  cbn [bind emit ret lift raise fst snd app list_index nth_error].
  destruct (get_organization (connect w (getpass w)) org_name) as [org|e].
  2:{ reflexivity. }
  cbn [bind emit ret lift raise fst snd app list_index nth_error].
  destruct (get_repo org repo_name) as [repo|e].
  2:{ reflexivity. }
  cbn [bind emit ret lift raise fst snd app list_index nth_error].
  destruct (pr_loop astimezone
              match given_username args with
              | Some name => name
              | None => login
              end start_year start_month (get_pulls repo)
              initial_counters false) as [progress [acc|e]];
    reflexivity.
Qed.

End ScriptStages.

Lemma rsplit_no_separator (c : ascii) (s : string) :
  PyStr.contains c s = false -> PyStr.rsplit c s = [s].
Proof.
  induction s as [|d s IH]; simpl; [reflexivity|].
  destruct (Ascii.eqb d c); simpl; [discriminate|].
  intros H. now rewrite (IH H).
Qed.

Lemma rsplit_parts_separator (c : ascii) (s a b : string)
    (rest : list string) :
  PyStr.rsplit c s = a :: b :: rest -> PyStr.contains c s = true.
Proof.
  intros Hsplit. destruct (PyStr.contains c s) eqn:E; [reflexivity|].
  rewrite (rsplit_no_separator c s E) in Hsplit. discriminate.
Qed.

(** X10: when the client raises an error for the organization, the
    script ends with that very error, after the prompt, the request for
    the login and the request for the organization named by the first
    part of the repository argument; the repository is not asked for. *)
Theorem X10_organization_error_propagates (Instant : Type)
    (astimezone : Instant -> DateTime) (args : Args) (w : World Instant)
    (start_year start_month : Z) (org_name repo_name : string)
    (others : list string) (login : string) (e : exn) :
  start_year_of args = Ok start_year ->
  start_month_of args = Ok start_month ->
  PyStr.rsplit "/" (repository args) = org_name :: repo_name :: others ->
  get_user_login (connect w (getpass w)) = Ok login ->
  get_organization (connect w (getpass w)) org_name = Raise e ->
  main_script astimezone args w
  = ([Getpass "Auth. Token:"; ApiGetUser; ApiGetOrganization org_name],
     Raise e).
Proof.
  intros Hy Hm Hsplit Hlogin Horg.
  rewrite (main_script_stages Instant astimezone args w start_year
             start_month org_name repo_name others
             (rsplit_parts_separator _ _ _ _ _ Hsplit) Hy Hm Hsplit).
  now rewrite Hlogin, Horg.
Qed.

Lemma X10_witness :
  start_year_of Sample.args_2023_06 = Ok 2023
  /\ start_month_of Sample.args_2023_06 = Ok 6
  /\ PyStr.rsplit "/" (repository Sample.args_2023_06) = ["ESCOMP"; "CAM"]
  /\ get_user_login
       (connect FailingSample.world_without_organization
          (getpass FailingSample.world_without_organization)) = Ok "alice"
  /\ get_organization
       (connect FailingSample.world_without_organization
          (getpass FailingSample.world_without_organization)) "ESCOMP"
     = Raise UnknownObjectException
  /\ main_script Sample.astimezone Sample.args_2023_06
       FailingSample.world_without_organization
     = ([Getpass "Auth. Token:"; ApiGetUser; ApiGetOrganization "ESCOMP"],
        Raise UnknownObjectException).
Proof.
  repeat (split; [reflexivity|]).
  apply (X10_organization_error_propagates Sample.Instant Sample.astimezone
           Sample.args_2023_06 FailingSample.world_without_organization
           2023 6 "ESCOMP" "CAM" [] "alice" UnknownObjectException
           eq_refl eq_refl eq_refl eq_refl eq_refl).
Defined.

(** X11: when the client raises an error for the repository, the script
    ends with that very error, after the request for the repository
    named by the second part of the repository argument; the pull
    requests are not asked for. *)
Theorem X11_repository_error_propagates (Instant : Type)
    (astimezone : Instant -> DateTime) (args : Args) (w : World Instant)
    (start_year start_month : Z) (org_name repo_name : string)
    (others : list string) (login : string) (org : Organization Instant)
    (e : exn) :
  start_year_of args = Ok start_year ->
  start_month_of args = Ok start_month ->
  PyStr.rsplit "/" (repository args) = org_name :: repo_name :: others ->
  get_user_login (connect w (getpass w)) = Ok login ->
  get_organization (connect w (getpass w)) org_name = Ok org ->
  get_repo org repo_name = Raise e ->
  main_script astimezone args w
  = ([Getpass "Auth. Token:"; ApiGetUser; ApiGetOrganization org_name;
      ApiGetRepo repo_name],
     Raise e).
Proof.
  intros Hy Hm Hsplit Hlogin Horg Hrepo.
  rewrite (main_script_stages Instant astimezone args w start_year
             start_month org_name repo_name others
             (rsplit_parts_separator _ _ _ _ _ Hsplit) Hy Hm Hsplit).
  now rewrite Hlogin, Horg, Hrepo.
Qed.

Lemma X11_witness :
  start_year_of Sample.args_2023_06 = Ok 2023
  /\ start_month_of Sample.args_2023_06 = Ok 6
  /\ PyStr.rsplit "/" (repository Sample.args_2023_06) = ["ESCOMP"; "CAM"]
  /\ get_user_login
       (connect FailingSample.world_without_repository
          (getpass FailingSample.world_without_repository)) = Ok "alice"
  /\ main_script Sample.astimezone Sample.args_2023_06
       FailingSample.world_without_repository
     = ([Getpass "Auth. Token:"; ApiGetUser; ApiGetOrganization "ESCOMP";
         ApiGetRepo "CAM"],
        Raise UnknownObjectException).
Proof.
  repeat (split; [reflexivity|]).
  apply (X11_repository_error_propagates Sample.Instant Sample.astimezone
           Sample.args_2023_06 FailingSample.world_without_repository
           2023 6 "ESCOMP" "CAM" [] "alice"
           (mkOrganization (fun _ => Raise UnknownObjectException))
           UnknownObjectException
           eq_refl eq_refl eq_refl eq_refl eq_refl eq_refl).
Defined.

(** X12: an error of the request for the login that is not the client's
    [BadCredentialsException] is not replaced: the script ends with it,
    after the prompt and that request. *)
Theorem X12_other_login_errors_propagate (Instant : Type)
    (astimezone : Instant -> DateTime) (args : Args) (w : World Instant)
    (start_year start_month : Z) (e : exn) :
  PyStr.contains "/" (repository args) = true ->
  start_year_of args = Ok start_year ->
  start_month_of args = Ok start_month ->
  get_user_login (connect w (getpass w)) = Raise e ->
  e <> BadCredentialsException ->
  main_script astimezone args w
  = ([Getpass "Auth. Token:"; ApiGetUser], Raise e).
Proof.
  intros Hsep Hy Hm Hlogin Hother.
  destruct (rsplit_two "/" _ Hsep) as [org_name [repo_name [others Hsplit]]].
  rewrite (main_script_stages Instant astimezone args w start_year
             start_month org_name repo_name others Hsep Hy Hm Hsplit).
  rewrite Hlogin. destruct e; try reflexivity. contradiction.
Qed.

Lemma X12_witness :
  PyStr.contains "/" (repository Sample.args_2023_06) = true
  /\ start_year_of Sample.args_2023_06 = Ok 2023
  /\ start_month_of Sample.args_2023_06 = Ok 6
  /\ get_user_login
       (connect FailingSample.world_rate_limited
          (getpass FailingSample.world_rate_limited))
     = Raise (OtherException "RateLimitExceededException")
  /\ OtherException "RateLimitExceededException" <> BadCredentialsException
  /\ main_script Sample.astimezone Sample.args_2023_06
       FailingSample.world_rate_limited
     = ([Getpass "Auth. Token:"; ApiGetUser],
        Raise (OtherException "RateLimitExceededException")).
Proof.
  assert (Hother : OtherException "RateLimitExceededException"
                   <> BadCredentialsException) by discriminate.
  repeat (split; [reflexivity|]). split; [exact Hother|].
  apply (X12_other_login_errors_propagate Sample.Instant Sample.astimezone
           Sample.args_2023_06 FailingSample.world_rate_limited 2023 6
           (OtherException "RateLimitExceededException")
           eq_refl eq_refl eq_refl eq_refl Hother).
Defined.

(** X13: a run in which the client answers every request and the loop
    ends well asks for the token, the login, the organization, the
    repository and the pull requests in this order, prints the progress
    lines between the two banners, closes the client, and prints the
    summary of the counters it returns last. *)
Theorem X13_events_of_a_good_run (Instant : Type)
    (astimezone : Instant -> DateTime) (args : Args) (w : World Instant)
    (start_year start_month : Z) (org_name repo_name : string)
    (others : list string) (login : string) (org : Organization Instant)
    (repo : Repository Instant) (progress : list Event) (acc : Accumulator) :
  start_year_of args = Ok start_year ->
  start_month_of args = Ok start_month ->
  PyStr.rsplit "/" (repository args) = org_name :: repo_name :: others ->
  get_user_login (connect w (getpass w)) = Ok login ->
  get_organization (connect w (getpass w)) org_name = Ok org ->
  get_repo org repo_name = Ok repo ->
  pr_loop astimezone
    match given_username args with
    | Some name => name
    | None => login
    end start_year start_month (get_pulls repo) initial_counters false
  = (progress, Ok acc) ->
  main_script astimezone args w
  = ([Getpass "Auth. Token:"; ApiGetUser; ApiGetOrganization org_name;
      ApiGetRepo repo_name; ApiGetPulls;
      PrintLine "Looping over PRs for ESCOMP/CAM..."]
     ++ progress
     ++ [PrintLine "...Finished ESCOMP/CAM PR loop."; ApiClose;
         PrintSummary acc],
     Ok acc).
Proof.
  intros Hy Hm Hsplit Hlogin Horg Hrepo Hscan.
  rewrite (main_script_stages Instant astimezone args w start_year
             start_month org_name repo_name others
             (rsplit_parts_separator _ _ _ _ _ Hsplit) Hy Hm Hsplit).
  rewrite Hlogin, Horg, Hrepo. cbv zeta. now rewrite Hscan.
Qed.

Lemma X13_witness :
  main_script Sample.astimezone Sample.args_2023_06
    (Sample.world [Sample.pr40; Sample.pr10; Sample.pr9])
  = ([Getpass "Auth. Token:"; ApiGetUser; ApiGetOrganization "ESCOMP";
      ApiGetRepo "CAM"; ApiGetPulls;
      PrintLine "Looping over PRs for ESCOMP/CAM..."]
     ++ [PrintOnPR 40; PrintOnPR 10]
     ++ [PrintLine "...Finished ESCOMP/CAM PR loop."; ApiClose;
         PrintSummary (mkAccumulator 2 128 39 120 10)],
     Ok (mkAccumulator 2 128 39 120 10)).
Proof.
  apply (X13_events_of_a_good_run Sample.Instant Sample.astimezone
           Sample.args_2023_06
           (Sample.world [Sample.pr40; Sample.pr10; Sample.pr9])
           2023 6 "ESCOMP" "CAM" [] "alice"
           (mkOrganization
              (fun _ => Ok (mkRepository
                              [Sample.pr40; Sample.pr10; Sample.pr9])))
           (mkRepository [Sample.pr40; Sample.pr10; Sample.pr9])
           [PrintOnPR 40; PrintOnPR 10] (mkAccumulator 2 128 39 120 10)
           eq_refl eq_refl eq_refl eq_refl eq_refl eq_refl eq_refl).
Defined.



Lemma slice_from_short (n : nat) (s : string) :
  (String.length s <= n)%nat -> PyStr.slice_from n s = EmptyString.
Proof.
  revert s. induction n as [|n IH]; intros s Hlen.
  - destruct s; [reflexivity | simpl in Hlen; lia].
  - destruct s as [|c s]; [reflexivity|]. simpl. apply IH.
    simpl in Hlen. lia.
Qed.

(** X15: a start date of five characters or fewer has no month to read:
    the month is [int] of the empty string, a [ValueError]. *)
Theorem X15_short_start_date_has_no_month (args : Args) :
  (String.length (start_date args) <= 5)%nat ->
  start_month_of args
  = Raise (ValueError "invalid literal for int() with base 10: ''").
Proof.
  intros Hlen. unfold start_month_of.
  now rewrite (slice_from_short 5 _ Hlen).
Qed.

Lemma X15_witness :
  (String.length (start_date (mkArgs "ESCOMP/CAM" "20236" None)) <= 5)%nat
  /\ start_month_of (mkArgs "ESCOMP/CAM" "20236" None)
     = Raise (ValueError "invalid literal for int() with base 10: ''").
Proof.
  assert (Hlen : (String.length (start_date (mkArgs "ESCOMP/CAM" "20236" None))
                  <= 5)%nat) by (simpl; lia).
  split; [exact Hlen|].
  apply (X15_short_start_date_has_no_month
           (mkArgs "ESCOMP/CAM" "20236" None) Hlen).
Defined.

(** X16: an empty user name on the command line counts as none: the run
    is the one without the option, for the user of the token. *)
Theorem X16_empty_username_is_no_username (Instant : Type)
    (astimezone : Instant -> DateTime) (repo date : string)
    (w : World Instant) :
  main_script astimezone (mkArgs repo date (Some EmptyString)) w
  = main_script astimezone (mkArgs repo date None) w.
Proof.
  unfold main_script, parse_command_line. simpl repository.
  destruct (PyStr.contains "/" repo); [|reflexivity].
  rewrite !bind_lift_ok. reflexivity.
Qed.

(** ** The further properties of the scan on sample inputs *)

Lemma X1_witness :
  snd (pr_loop Sample.astimezone "alice" 2023 6
         [Sample.pr7; Sample.pr10; Sample.pr9] initial_counters false)
  = Ok (mkAccumulator 3 320 110 120 10)
  /\ num_additions (mkAccumulator 3 320 110 120 10)
     = sum_of
         (fun pr =>
            Z.of_nat (List.length
                        (counted_reviews Sample.astimezone "alice" 2023 6
                           (get_reviews pr))) * additions pr)
         (scanned Sample.astimezone "alice" 2023 6
            [Sample.pr7; Sample.pr10; Sample.pr9]).
Proof.
  split; [reflexivity|].
  apply (X1_counters_weigh_pulls_by_counted_reviews Sample.Instant
           Sample.astimezone "alice" 2023 6
           [Sample.pr7; Sample.pr10; Sample.pr9]
           (mkAccumulator 3 320 110 120 10) eq_refl).
Defined.

Lemma X2_witness :
  snd (pr_loop Sample.astimezone "alice" 2023 6
         [Sample.pr32; Sample.pr31; Sample.pr30] initial_counters false)
  = Ok (mkAccumulator 3 120 6 50 32)
  /\ 0 <= max_pr_additions (mkAccumulator 3 120 6 50 32).
Proof.
  split; [reflexivity|].
  apply (X2_maximum_bounds_counted_pulls Sample.Instant Sample.astimezone
           "alice" 2023 6 [Sample.pr32; Sample.pr31; Sample.pr30]
           (mkAccumulator 3 120 6 50 32) eq_refl).
Defined.

Lemma X4_witness :
  (forall pr, In pr [Sample.pr32; Sample.pr31; Sample.pr30] ->
              0 <= additions pr /\ 0 <= deletions pr)
  /\ snd (pr_loop Sample.astimezone "alice" 2023 6
            [Sample.pr32; Sample.pr31; Sample.pr30] initial_counters false)
     = Ok (mkAccumulator 3 120 6 50 32)
  /\ 0 <= max_pr_additions (mkAccumulator 3 120 6 50 32)
          <= num_additions (mkAccumulator 3 120 6 50 32).
Proof.
  assert (Hpos : forall pr,
            In pr [Sample.pr32; Sample.pr31; Sample.pr30] ->
            0 <= additions pr /\ 0 <= deletions pr).
  { intros pr [<-|[<-|[<-|[]]]]; simpl; lia. }
  split; [exact Hpos|]. split; [reflexivity|].
  apply (X4_counters_not_negative Sample.Instant Sample.astimezone
           "alice" 2023 6 [Sample.pr32; Sample.pr31; Sample.pr30]
           (mkAccumulator 3 120 6 50 32) Hpos eq_refl).
Defined.

Lemma X5_witness :
  (forall pr, In pr [Sample.pr7] -> 0 <= additions pr /\ 0 <= deletions pr)
  /\ snd (pr_loop Sample.astimezone "alice" 2023 6 [Sample.pr10]
            initial_counters false)
     = Ok (mkAccumulator 1 120 30 120 10)
  /\ snd (pr_loop Sample.astimezone "alice" 2023 6
            ([Sample.pr10] ++ [Sample.pr7]) initial_counters false)
     = Ok (mkAccumulator 3 320 110 120 10)
  /\ num_additions (mkAccumulator 1 120 30 120 10)
     <= num_additions (mkAccumulator 3 320 110 120 10).
Proof.
  assert (Hpos : forall pr, In pr [Sample.pr7] ->
                            0 <= additions pr /\ 0 <= deletions pr).
  { intros pr [<-|[]]; simpl; lia. }
  split; [exact Hpos|]. split; [reflexivity|]. split; [reflexivity|].
  apply (X5_longer_input_lowers_no_counter Sample.Instant Sample.astimezone
           "alice" 2023 6 [Sample.pr10] [Sample.pr7]
           (mkAccumulator 1 120 30 120 10) (mkAccumulator 3 320 110 120 10)
           Hpos eq_refl eq_refl).
Defined.

Lemma X6_witness :
  (forall pr, In pr [Sample.pr32; Sample.pr31; Sample.pr30] ->
     (List.length (filter (is_user_review "alice") (get_reviews pr))
      <= 1)%nat)
  /\ snd (pr_loop Sample.astimezone "alice" 2023 6
            [Sample.pr32; Sample.pr31; Sample.pr30] initial_counters false)
     = Ok (mkAccumulator 3 120 6 50 32)
  /\ num_additions (mkAccumulator 3 120 6 50 32)
     = sum_of additions
         (reviewed_prs Sample.astimezone "alice" 2023 6
            [Sample.pr32; Sample.pr31; Sample.pr30]).
Proof.
  assert (Hone : forall pr,
            In pr [Sample.pr32; Sample.pr31; Sample.pr30] ->
            (List.length (filter (is_user_review "alice") (get_reviews pr))
             <= 1)%nat).
  { intros pr [<-|[<-|[<-|[]]]]; simpl; lia. }
  split; [exact Hone|]. split; [reflexivity|].
  apply (X6_single_reviews_count_once_per_pull Sample.Instant
           Sample.astimezone "alice" 2023 6
           [Sample.pr32; Sample.pr31; Sample.pr30]
           (mkAccumulator 3 120 6 50 32) Hone eq_refl).
Defined.

Lemma X7_witness :
  merged (mkPullRequest 8 false None 5 5 (@nil (Review Sample.Instant)))
  = false
  /\ get_reviews (mkPullRequest 8 false None 5 5
                    (@nil (Review Sample.Instant))) = []
  /\ snd (pr_loop Sample.astimezone "alice" 2023 6
            ([Sample.pr10] ++ mkPullRequest 8 false None 5 5 []
                           :: [Sample.pr7]) initial_counters false)
     = snd (pr_loop Sample.astimezone "alice" 2023 6
              ([Sample.pr10] ++ [Sample.pr7]) initial_counters false).
Proof.
  split; [reflexivity|]. split; [reflexivity|].
  apply (X7_pull_without_reviews_changes_nothing Sample.Instant
           Sample.astimezone "alice" 2023 6 [Sample.pr10]
           (mkPullRequest 8 false None 5 5 []) [Sample.pr7]
           eq_refl eq_refl).
Defined.

Lemma X8_witness :
  merged Sample.pr10 = true
  /\ merged_at Sample.pr10 = Some (Sample.ym 2023 8)
  /\ ym_le (cutoff 2023 6) (Sample.astimezone (Sample.ym 2023 8))
  /\ pr_loop Sample.astimezone "alice" 2023 6
       ([] ++ Sample.pr10 :: [Sample.pr9]) initial_counters false
     = pr_loop Sample.astimezone "alice" 2023 6
         ([] ++ unmerged Sample.pr10 :: [Sample.pr9]) initial_counters false.
Proof.
  assert (Hle : ym_le (cutoff 2023 6) (Sample.astimezone (Sample.ym 2023 8))).
  { right. split; [reflexivity|]. simpl. lia. }
  split; [reflexivity|]. split; [reflexivity|]. split; [exact Hle|].
  apply (X8_merge_in_window_scanned_as_unmerged Sample.Instant
           Sample.astimezone "alice" 2023 6 [] Sample.pr10 [Sample.pr9]
           (Sample.ym 2023 8) eq_refl eq_refl Hle).
Defined.

Lemma X9_witness :
  (forall pr r, In pr [Sample.pr60] -> In r (get_reviews pr) ->
                user_login r <> "alice" \/ state r = "COMMENTED")
  /\ snd (pr_loop Sample.astimezone "alice" 2023 6 [Sample.pr60]
            initial_counters false) = Ok initial_counters
  /\ initial_counters = initial_counters.
Proof.
  assert (Hnone : forall pr r, In pr [Sample.pr60] -> In r (get_reviews pr) ->
                    user_login r <> "alice" \/ state r = "COMMENTED").
  { intros pr r [<-|[]] [<-|[<-|[]]];
      [right; reflexivity | left; discriminate]. }
  split; [exact Hnone|]. split; [reflexivity|].
  apply (X9_no_review_by_user_leaves_zero Sample.Instant Sample.astimezone
           "alice" 2023 6 [Sample.pr60] initial_counters Hnone eq_refl).
Defined.

(** ** More on the start date *)

(** X17: of a start date of six digits, the year is read from the first
    four digits and the month from the last digit alone; the month read
    is the one the last two digits write exactly when the fifth digit
    is 0. *)
Theorem X17_six_digit_start_date (repo : string) (name : option string)
    (y1 y2 y3 y4 m1 m2 : Z) :
  Forall is_decimal_digit [y1; y2; y3; y4; m1; m2] ->
  start_year_of (mkArgs repo (yyyymm y1 y2 y3 y4 m1 m2) name)
  = Ok (decimal_value [y1; y2; y3; y4])
  /\ start_month_of (mkArgs repo (yyyymm y1 y2 y3 y4 m1 m2) name) = Ok m2
  /\ (start_month_of (mkArgs repo (yyyymm y1 y2 y3 y4 m1 m2) name)
      = Ok (decimal_value [m1; m2])
      <-> m1 = 0).
Proof.
  intros Hds.
  rewrite start_year_of_yyyymm, start_month_of_yyyymm by exact Hds.
  cbv [decimal_value fold_left].
  split; [f_equal; lia|]. split; [reflexivity|].
  split.
  - intros E.
    assert (E' : m2 = 10 * (10 * 0 + m1) + m2) by congruence. lia.
  - intros ->. f_equal.
Qed.

Lemma X17_witness :
  Forall is_decimal_digit [2; 0; 2; 3; 1; 1]
  /\ start_year_of (mkArgs "ESCOMP/CAM" (yyyymm 2 0 2 3 1 1) None) = Ok 2023
  /\ start_month_of (mkArgs "ESCOMP/CAM" (yyyymm 2 0 2 3 1 1) None) = Ok 1.
Proof.
  assert (Hds : Forall is_decimal_digit [2; 0; 2; 3; 1; 1]).
  { repeat (apply Forall_cons; [unfold is_decimal_digit; lia|]).
    apply Forall_nil. }
  split; [exact Hds|].
  destruct (X17_six_digit_start_date "ESCOMP/CAM" None 2 0 2 3 1 1 Hds)
    as [Hy [Hm _]].
  split; [exact Hy | exact Hm].
Defined.

(** X18: of a start date of seven characters, four digits of the year,
    any character, two digits of the month, the year and the month are
    read as written. *)
Theorem X18_separated_start_date (repo : string) (name : option string)
    (y1 y2 y3 y4 : Z) (sep : ascii) (m1 m2 : Z) :
  Forall is_decimal_digit [y1; y2; y3; y4; m1; m2] ->
  start_year_of (mkArgs repo (yyyy_mm y1 y2 y3 y4 sep m1 m2) name)
  = Ok (decimal_value [y1; y2; y3; y4])
  /\ start_month_of (mkArgs repo (yyyy_mm y1 y2 y3 y4 sep m1 m2) name)
     = Ok (decimal_value [m1; m2]).
Proof.
  intros Hds.
  repeat (apply Forall_cons_iff in Hds; destruct Hds as [? Hds]).
  unfold start_year_of, start_month_of. simpl start_date.
  change (PyStr.slice 0 4 (yyyy_mm y1 y2 y3 y4 sep m1 m2))
    with (digits_string [y1; y2; y3; y4]).
  change (PyStr.slice_from 5 (yyyy_mm y1 y2 y3 y4 sep m1 m2))
    with (digits_string [m1; m2]).
  split; apply int_digits_string; try discriminate;
    repeat (apply Forall_cons; [assumption|]); apply Forall_nil.
Qed.

Lemma X18_witness :
  Forall is_decimal_digit [2; 0; 2; 3; 1; 1]
  /\ yyyy_mm 2 0 2 3 "-" 1 1 = "2023-11"
  /\ start_year_of (mkArgs "ESCOMP/CAM" "2023-11" None) = Ok 2023
  /\ start_month_of (mkArgs "ESCOMP/CAM" "2023-11" None) = Ok 11.
Proof.
  assert (Hds : Forall is_decimal_digit [2; 0; 2; 3; 1; 1]).
  { repeat (apply Forall_cons; [unfold is_decimal_digit; lia|]).
    apply Forall_nil. }
  split; [exact Hds|]. split; [reflexivity|].
  apply (X18_separated_start_date "ESCOMP/CAM" None 2 0 2 3 "-" 1 1 Hds).
Defined.

(** ** More on the repository argument *)

Lemma rsplit_after_part (c : ascii) (a b : string) :
  PyStr.contains c a = false ->
  PyStr.rsplit c (a ++ String c b) = a :: PyStr.rsplit c b.
Proof.
  induction a as [|d a IH]; simpl.
  - intros _. now rewrite Ascii.eqb_refl.
  - destruct (Ascii.eqb d c); simpl; [discriminate|].
    intros H. now rewrite (IH H).
Qed.

(** X19: splitting at a separator loses nothing: joining the parts with
    the separator gives the string back, there is one part more than
    there are separators, and no part holds a separator. *)
Theorem X19_rsplit_join (c : ascii) (s : string) :
  PyFmt.join c (PyStr.rsplit c s) = s
  /\ List.length (PyStr.rsplit c s) = S (PyStr.count c s)
  /\ Forall (fun part => PyStr.contains c part = false) (PyStr.rsplit c s).
Proof.
  induction s as [|d s [Hjoin [Hlen Hparts]]]; simpl.
  - repeat split. constructor; [reflexivity | constructor].
  - destruct (Ascii.eqb_spec d c) as [->|Hne].
    + simpl. rewrite Hlen. split; [|split; [reflexivity|]].
      * destruct (PyStr.rsplit c s) as [|w ws] eqn:E;
          [now apply rsplit_not_nil in E|].
        now rewrite Hjoin.
      * constructor; [reflexivity | exact Hparts].
    + destruct (PyStr.rsplit c s) as [|w ws] eqn:E;
        [now apply rsplit_not_nil in E|].
      simpl in Hlen. simpl. split; [|split; [exact Hlen|]].
      * destruct ws as [|w' ws']; simpl in *; now rewrite <- Hjoin.
      * inversion Hparts as [|? ? Hw Hws]; subst.
        constructor; [|exact Hws]. simpl.
        apply Ascii.eqb_neq in Hne. now rewrite Hne.
Qed.

(** X20: of a repository argument [org/repo], with no [/] in [org] and
    [repo], the parts are [org] and [repo]; when more follows a second
    [/], the first two parts are still [org] and [repo]. *)
Theorem X20_repository_parts (org repo : string) :
  PyStr.contains "/" org = false ->
  PyStr.contains "/" repo = false ->
  PyStr.rsplit "/" (org ++ String "/" repo) = [org; repo]
  /\ forall extra,
       PyStr.rsplit "/" (org ++ String "/" (repo ++ String "/" extra))
       = org :: repo :: PyStr.rsplit "/" extra.
Proof.
  intros Horg Hrepo. split.
  - now rewrite rsplit_after_part, rsplit_no_separator.
  - intros extra. now rewrite !rsplit_after_part.
Qed.

Lemma X20_witness :
  PyStr.contains "/" "ESCOMP" = false
  /\ PyStr.contains "/" "CAM" = false
  /\ PyStr.rsplit "/" ("ESCOMP" ++ String "/" "CAM") = ["ESCOMP"; "CAM"].
Proof.
  split; [reflexivity|]. split; [reflexivity|].
  apply (X20_repository_parts "ESCOMP" "CAM" eq_refl eq_refl).
Defined.

(** ** The counters as the summary prints them *)

Lemma decimal_value_rev (ds : list Z) :
  decimal_value (rev ds) = fold_right (fun d a => 10 * a + d) 0 ds.
Proof.
  unfold decimal_value.
  rewrite <- (rev_involutive ds) at 2.
  now rewrite (fold_left_rev_right (fun d a => 10 * a + d) (rev ds) 0).
Qed.

Lemma digits_lsf_spec (fuel : nat) (n : Z) :
  (1 <= fuel)%nat ->
  0 <= n < 2 ^ Z.of_nat fuel ->
  fold_right (fun d a => 10 * a + d) 0 (PyFmt.digits_lsf fuel n) = n
  /\ Forall is_decimal_digit (PyFmt.digits_lsf fuel n)
  /\ PyFmt.digits_lsf fuel n <> [].
Proof.
  revert n. induction fuel as [|fuel IH]; intros n Hfuel Hn; [lia|].
  simpl PyFmt.digits_lsf. destruct (Z.ltb_spec n 10) as [Hsmall|Hbig].
  - simpl. split; [lia|]. split; [|discriminate].
    constructor; [unfold is_decimal_digit; lia | constructor].
  - assert (Hpow : 2 ^ Z.of_nat (S fuel) = 2 * 2 ^ Z.of_nat fuel).
    { rewrite Nat2Z.inj_succ. apply Z.pow_succ_r. lia. }
    assert (Hq : 0 <= n / 10 < 2 ^ Z.of_nat fuel).
    { split; [apply Z.div_pos; lia|].
      apply Z.div_lt_upper_bound; lia. }
    assert (Hfuel' : (1 <= fuel)%nat).
    { destruct fuel; [simpl in Hpow; lia | lia]. }
    destruct (IH (n / 10) Hfuel' Hq) as [Hval [Hall _]].
    cbn [fold_right]. rewrite Hval.
    pose proof (Z.mod_pos_bound n 10 ltac:(lia)) as Hmod.
    pose proof (Z.div_mod n 10 ltac:(lia)) as Hdiv.
    split; [lia|]. split; [|discriminate].
    constructor; [unfold is_decimal_digit; lia | exact Hall].
Qed.

(** The digits of a number that is not negative write it. *)
Lemma digits_spec (n : Z) :
  0 <= n ->
  decimal_value (PyFmt.digits n) = n
  /\ Forall is_decimal_digit (PyFmt.digits n)
  /\ PyFmt.digits n <> [].
Proof.
  intros Hn. unfold PyFmt.digits.
  destruct (digits_lsf_spec (S (Z.to_nat (Z.log2 n))) n) as [Hval [Hall Hne]].
  - lia.
  - split; [exact Hn|].
    rewrite Nat2Z.inj_succ, Z2Nat.id by apply Z.log2_nonneg.
    destruct (Z.eq_dec n 0) as [->|Hpos]; [simpl; lia|].
    apply Z.log2_spec. lia.
  - rewrite decimal_value_rev. split; [exact Hval|].
    split; [now apply Forall_rev|].
    intros E. apply Hne. rewrite <- (rev_involutive (PyFmt.digits_lsf _ n)).
    now rewrite E.
Qed.

Lemma digits_lsf_length (fuel : nat) (n : Z) (k : nat) :
  (1 <= k)%nat ->
  0 <= n < 10 ^ Z.of_nat k ->
  (List.length (PyFmt.digits_lsf fuel n) <= k)%nat.
Proof.
  revert n k. induction fuel as [|fuel IH]; intros n k Hk Hn; simpl; [lia|].
  destruct (Z.ltb_spec n 10) as [Hsmall|Hbig]; simpl; [lia|].
  destruct k as [|k]; [lia|].
  assert (Hpow : 10 ^ Z.of_nat (S k) = 10 * 10 ^ Z.of_nat k).
  { rewrite Nat2Z.inj_succ. apply Z.pow_succ_r. lia. }
  assert (Hk' : (1 <= k)%nat).
  { destruct k; [simpl in Hpow; lia | lia]. }
  assert (Hq : 0 <= n / 10 < 10 ^ Z.of_nat k).
  { split; [apply Z.div_pos; lia|].
    apply Z.div_lt_upper_bound; lia. }
  specialize (IH (n / 10) k Hk' Hq). lia.
Qed.

Lemma digit_char_not_comma (d : Z) :
  is_decimal_digit d -> Ascii.eqb (digit_char d) "," = false.
Proof.
  unfold is_decimal_digit. intros Hd.
  assert (Hcases : d = 0 \/ d = 1 \/ d = 2 \/ d = 3 \/ d = 4 \/ d = 5
                   \/ d = 6 \/ d = 7 \/ d = 8 \/ d = 9) by lia.
  repeat (destruct Hcases as [->|Hcases]); try subst d; reflexivity.
Qed.





(** The parts between the commas: the first has as many digits as are
    left over by the groups of three, the others have three. *)
Lemma group_thousands_parts (ds : list Z) :
  Forall is_decimal_digit ds -> ds <> [] ->
  exists first others,
    PyStr.rsplit "," (PyFmt.group_thousands ds) = first :: others
    /\ String.length first = S ((List.length ds - 1) mod 3)
    /\ Forall (fun part => String.length part = 3%nat) others.
Proof.
  induction 1 as [|d ds Hd Hds IH]; intros Hne; [contradiction|].
  pose proof (digit_char_not_comma d Hd) as Hchar.
  destruct ds as [|d' ds'].
  - exists (String (digit_char d) EmptyString), [].
    cbn [PyFmt.group_thousands List.length Nat.eqb negb andb PyStr.rsplit].
    rewrite Hchar. repeat split. constructor.
  - destruct IH as [first [others [Hsplit [Hlen Hthree]]]]; [discriminate|].
    assert (Hpos : (1 <= List.length (d' :: ds'))%nat) by (simpl; lia).
    remember (d' :: ds') as rest eqn:Hrest. clear Hrest Hne Hds d' ds'.
    cbn [PyFmt.group_thousands].
    assert (Hsome : (List.length rest =? 0)%nat = false)
      by (apply Nat.eqb_neq; lia).
    rewrite Hsome. cbn [negb andb].
    pose proof (Nat.div_mod_eq (List.length rest) 3) as Hdiv.
    pose proof (Nat.mod_upper_bound (List.length rest) 3
                  ltac:(discriminate)) as Hmod.
    pose proof (Nat.div_mod_eq (List.length rest - 1) 3) as Hdiv'.
    pose proof (Nat.mod_upper_bound (List.length rest - 1) 3
                  ltac:(discriminate)) as Hmod'.
    assert (Hhere : (List.length (d :: rest) - 1)%nat = List.length rest)
      by (simpl; lia).
    rewrite Hhere.
    destruct (Nat.eqb_spec (List.length rest mod 3) 0) as [Hz|Hnz].
    + exists (String (digit_char d) EmptyString), (first :: others).
      cbn [PyStr.rsplit]. rewrite Hchar.
      change (Ascii.eqb "," ",") with true. cbn iota.
      rewrite Hsplit. split; [reflexivity|]. split.
      * simpl String.length. lia.
      * constructor; [|exact Hthree]. lia.
    + exists (String (digit_char d) first), others.
      cbn [PyStr.rsplit]. rewrite Hchar, Hsplit.
      split; [reflexivity|]. split; [|exact Hthree].
      simpl String.length. lia.
Qed.

Lemma group_thousands_short (ds : list Z) :
  (List.length ds <= 3)%nat ->
  PyFmt.group_thousands ds = digits_string ds.
Proof.
  intros Hlen.
  destruct ds as [|a [|b [|c [|d ds]]]]; try reflexivity.
  simpl in Hlen. lia.
Qed.

(** X22: the text of a counter that is not negative has its digits in
    groups between the commas: one to three digits first, then three
    digits in every further group; below 1000 there is no comma, the
    text is the decimal numeral. *)
Theorem X22_formatted_counter_groups (n : Z) :
  0 <= n ->
  (exists first others,
     PyStr.rsplit "," (PyFmt.format_thousands n) = first :: others
     /\ (1 <= String.length first <= 3)%nat
     /\ Forall (fun part => String.length part = 3%nat) others)
  /\ (n < 1000 -> PyFmt.format_thousands n = PyFmt.str n).
Proof.
  intros Hn. unfold PyFmt.format_thousands, PyFmt.str.
  destruct (Z.ltb_spec n 0) as [Hneg|_]; [lia|].
  destruct (digits_spec n Hn) as [_ [Hall Hne]].
  split.
  - destruct (group_thousands_parts _ Hall Hne)
      as [first [others [Hsplit [Hlen Hthree]]]].
    exists first, others. split; [exact Hsplit|]. split; [|exact Hthree].
    pose proof (Nat.mod_upper_bound (List.length (PyFmt.digits n) - 1) 3
                  ltac:(discriminate)).
    lia.
  - intros Hsmall. apply group_thousands_short.
    unfold PyFmt.digits. rewrite length_rev.
    apply digits_lsf_length; [lia|]. simpl. lia.
Qed.

Lemma X22_witness :
  0 <= 1234567
  /\ PyStr.rsplit "," (PyFmt.format_thousands 1234567) = ["1"; "234"; "567"]
  /\ exists first others,
       PyStr.rsplit "," (PyFmt.format_thousands 1234567) = first :: others
       /\ (1 <= String.length first <= 3)%nat
       /\ Forall (fun part => String.length part = 3%nat) others.
Proof.
  assert (Hn : 0 <= 1234567) by lia.
  split; [exact Hn|]. split; [reflexivity|].
  apply (proj1 (X22_formatted_counter_groups 1234567 Hn)).
Defined.
